(** * Cattle marketplace backend: proposal lifecycle and settlement engine

    A shallow embedding of [BackEnd/main.py]: the JSON record store, the
    notification helper, and the request handlers of the proposal lifecycle
    (create / accept / reject / pay) and of the settlement engine (weights,
    advance payment, finalize, slaughterhouse weight), followed by the
    properties of the specification stated against them.

    Conventions of the embedding:
    - a JSON file holding a list of dicts is a [list] of records, in file
      order ([next(... for ... if ...)] is [find]: the first match);
    - a dict that the handler fetches with [next] and then mutates in place
      before [save_json] is an in-place update of the first match
      ([update_first]);
    - Python [float] is IEEE binary64, i.e. Rocq's primitive [float];
      [round(x, 2)] is [round2];
    - [uuid.uuid4()], [time.time()] and [datetime.now()] read the
      environment: the n-th value drawn is given by an [Env], and the store
      counts the draws;
    - a handler is a computation in the monad [M]: it either returns a value
      or raises, and in both cases yields the files as they then are. *)

From Stdlib Require Import ZArith List String Bool Lia DecimalString.
From Stdlib Require Import PrimFloat FloatOps SpecFloat.
From Stdlib Require Import FloatAxioms Permutation Sorted.
Import ListNotations.
Set Warnings "-inexact-float,-notation-for-abbreviation".
Open Scope Z_scope.
Open Scope string_scope.

(* ================================================================== *)
(** ** Python numbers *)

(** [round_half_even m e] is the integer nearest to [m * 2^e], ties going
    to the even neighbour: the decimal rounding CPython's [round] performs
    on the exact value of a double. *)
Definition round_half_even (m e : Z) : Z :=
  if (0 <=? e)%Z then m * 2 ^ e
  else
    let d := 2 ^ (- e) in
    let q := m / d in
    let r := m mod d in
    if (2 * r <? d)%Z then q
    else if (d <? 2 * r)%Z then q + 1
    else if Z.even q then q else q + 1.

(** [round(x, 2)] on a float: infinities and NaN round to themselves; a
    finite [x] is rounded (half-even, on its exact value) to an integer
    number [n] of hundredths and the result is the double nearest to
    [n / 100], keeping the sign of [x] when [n = 0]. *)
Definition round2 (x : float) : float :=
  match Prim2SF x with
  | S754_finite s m e =>
      match round_half_even (Zpos m * 100) e with
      | Zpos n =>
          SF2Prim (SFdiv prec emax (S754_finite s n 0) (S754_finite false 100 0))
      | _ => if s then (-0)%float else 0%float
      end
  | _ => x
  end.

(** [sum(...)] over floats ([0 + x1 + x2 + ...], left to right) and over
    ints. *)
Definition sum_float (l : list float) : float :=
  fold_left PrimFloat.add l 0%float.

Definition sum_int (l : list Z) : Z := fold_left Z.add l 0%Z.

(** Mass units per settlement unit ([total_weight / 15]). *)
Definition ARROBA : float := 15%float.

(* ================================================================== *)
(** ** Lists as JSON arrays *)

(** The dict returned by [next(x for x in l if p x)] is mutated in place:
    the first element satisfying [p] is replaced by its image. *)
Fixpoint update_first {A : Type} (p : A -> bool) (f : A -> A) (l : list A) : list A :=
  match l with
  | [] => []
  | x :: r => if p x then f x :: r else x :: update_first p f r
  end.

(* ================================================================== *)
(** ** Records *)

Module User.
Record t : Type := mk {
  username : string;
  role : option string;
  phone : string
}.
End User.

(** Modelled from the spec: the [FarmerCreate] part of a listing
    ([models.py] is not among the sources): breed and head count.  The other
    keys are the ones [main.py] itself writes or reads. *)
Module Listing.
Record t : Type := mk {
  id : string;
  owner_id : string;
  status : string;
  race : string;
  quantity : option Z;
  buyer_id : option string;
  nfe_file : option string;
  gta_file : option string;
  transaction_id : option string;
  internal_estimated_weight : option float;
  internal_weight_recorded_at : option float;
  pauta_value_requested : option float;
  advance_payment_status : option string
}.

Definition set_status (v : string) (l : t) : t :=
  mk (id l) (owner_id l) v (race l) (quantity l) (buyer_id l) (nfe_file l)
     (gta_file l) (transaction_id l) (internal_estimated_weight l)
     (internal_weight_recorded_at l) (pauta_value_requested l)
     (advance_payment_status l).

Definition set_buyer_id (v : string) (l : t) : t :=
  mk (id l) (owner_id l) (status l) (race l) (quantity l) (Some v) (nfe_file l)
     (gta_file l) (transaction_id l) (internal_estimated_weight l)
     (internal_weight_recorded_at l) (pauta_value_requested l)
     (advance_payment_status l).

Definition set_transaction_id (v : string) (l : t) : t :=
  mk (id l) (owner_id l) (status l) (race l) (quantity l) (buyer_id l)
     (nfe_file l) (gta_file l) (Some v) (internal_estimated_weight l)
     (internal_weight_recorded_at l) (pauta_value_requested l)
     (advance_payment_status l).

Definition set_internal_weight (w at_ : float) (l : t) : t :=
  mk (id l) (owner_id l) (status l) (race l) (quantity l) (buyer_id l)
     (nfe_file l) (gta_file l) (transaction_id l) (Some w) (Some at_)
     (pauta_value_requested l) (advance_payment_status l).

Definition set_advance (v : float) (st : string) (l : t) : t :=
  mk (id l) (owner_id l) (status l) (race l) (quantity l) (buyer_id l)
     (nfe_file l) (gta_file l) (transaction_id l) (internal_estimated_weight l)
     (internal_weight_recorded_at l) (Some v) (Some st).
End Listing.

(** The request body of [POST /api/proposals] (class [Proposal]). *)
Module ProposalIn.
Record t : Type := mk {
  supply_id : string;
  price_offer : float;
  message : option string
}.
End ProposalIn.

Module Proposal.
Record t : Type := mk {
  id : string;
  supply_id : string;
  buyer_id : string;
  buyer_contact : string;
  price_offer : float;
  message : option string;
  status : string;
  timestamp : float
}.

Definition set_status (v : string) (p : t) : t :=
  mk (id p) (supply_id p) (buyer_id p) (buyer_contact p) (price_offer p)
     (message p) v (timestamp p).
End Proposal.

(** The request body of [POST /api/listings/{id}/weights]. *)
Module WeightEntry.
Record t : Type := mk {
  batch_number : Z;
  quantity : Z;
  total_weight : float;
  timestamp : option string
}.
End WeightEntry.

(** A record of [weights.json]: [weight.dict()] plus [listing_id], with
    the timestamp filled in. *)
Module Weight.
Record t : Type := mk {
  batch_number : Z;
  quantity : Z;
  total_weight : float;
  timestamp : string;
  listing_id : string
}.
End Weight.

(** The validated request body of [POST /api/listings/{id}/finalize]. *)
Module FinalPayment.
Record t : Type := mk {
  nfe_document : string;
  gta_document : string;
  transport_fee : option float;
  funrural_tax : option float;
  yield_rate : float
}.
End FinalPayment.

(** The JSON body as sent: a key may be left out ([None]); the two fees may
    also be sent as [null] ([Some None]), which [Optional[float]] admits. *)
Module FinalPaymentBody.
Record t : Type := mk {
  nfe_document : string;
  gta_document : string;
  transport_fee : option (option float);
  funrural_tax : option (option float);
  yield_rate : option float
}.
End FinalPaymentBody.

Module Transaction.
Record t : Type := mk {
  id : string;
  listing_id : string;
  proposal_id : string;
  nfe_document : string;
  gta_document : string;
  transport_fee : option float;
  funrural_tax : option float;
  timestamp : float;
  total_weight : option float;
  at_quantity : option float;
  yield_rate : option float;
  price_per_unit : option float;
  gross_amount : option float;
  final_amount : option float;
  status : option string;
  note : option string;
  slaughterhouse_weight : option float;
  completed_at : option float
}.

(** The dict literal [finalize_transaction] starts from. *)
Definition base (i lid pid nfe gta : string) (tf tx : option float) (ts : float) : t :=
  mk i lid pid nfe gta tf tx ts None None None None None None None None None None.

(** [transaction.update({...})] of the live-weight branch. *)
Definition update_live (tw atq yr ppu gross final : float) (x : t) : t :=
  mk (id x) (listing_id x) (proposal_id x) (nfe_document x) (gta_document x)
     (transport_fee x) (funrural_tax x) (timestamp x)
     (Some tw) (Some atq) (Some yr) (Some ppu) (Some gross) (Some final)
     (Some "completed") (note x) (slaughterhouse_weight x) (completed_at x).

(** [transaction.update({...})] of the dead-weight branch. *)
Definition update_dead (x : t) : t :=
  mk (id x) (listing_id x) (proposal_id x) (nfe_document x) (gta_document x)
     (transport_fee x) (funrural_tax x) (timestamp x)
     (total_weight x) (at_quantity x) (yield_rate x) (price_per_unit x)
     (gross_amount x) (final_amount x)
     (Some "awaiting_slaughterhouse_weight")
     (Some "Waiting for slaughterhouse weighing")
     (slaughterhouse_weight x) (completed_at x).

(** [transaction.update({...})] of [submit_slaughterhouse_weight]. *)
Definition update_slaughterhouse (sw atq yr ppu final done : float) (x : t) : t :=
  mk (id x) (listing_id x) (proposal_id x) (nfe_document x) (gta_document x)
     (transport_fee x) (funrural_tax x) (timestamp x)
     (total_weight x) (Some atq) (Some yr) (Some ppu)
     (gross_amount x) (Some final) (Some "completed") (note x)
     (Some sw) (Some done).
End Transaction.

(** The [details] payload of a notification: the dict handed to
    [save_notification]. *)
Inductive details : Type :=
  | DEmpty
  | DProposal (p : Proposal.t)
  | DTransaction (x : Transaction.t)
  | DWeighing (listing_id : string) (total_weighed : Z)
  | DAdvance (listing_id : string) (amount : float)
  | DTransactionRef (transaction_id : string)
  | DFinalWeighing (transaction_id : string) (final_amount : float).

Module Notification.
Record t : Type := mk {
  id : string;
  user_id : option string;
  message : string;
  payload : details;
  timestamp : float;
  read : bool
}.
End Notification.

(* ================================================================== *)
(** ** The record store *)

(** The JSON files under [BASE_DIR], and the number of values drawn so far
    from the environment ([uuid4], [time.time], [datetime.now]). *)
Record Store : Type := mkStore {
  users : list User.t;
  farmers : list Listing.t;
  proposals : list Proposal.t;
  notifications : list Notification.t;
  weights : list Weight.t;
  transactions : list Transaction.t;
  draws : nat
}.

(** A file path together with the type of its records. *)
Record file (A : Type) : Type := mkFile {
  contents : Store -> list A;
  overwrite : list A -> Store -> Store
}.
Arguments contents {A} _ _.
Arguments overwrite {A} _ _ _.

Definition DB_USERS : file User.t :=
  mkFile _ users
    (fun d s => mkStore d (farmers s) (proposals s) (notifications s)
                        (weights s) (transactions s) (draws s)).

Definition DB_FARMERS : file Listing.t :=
  mkFile _ farmers
    (fun d s => mkStore (users s) d (proposals s) (notifications s)
                        (weights s) (transactions s) (draws s)).

Definition DB_PROPOSALS : file Proposal.t :=
  mkFile _ proposals
    (fun d s => mkStore (users s) (farmers s) d (notifications s)
                        (weights s) (transactions s) (draws s)).

Definition DB_NOTIFS : file Notification.t :=
  mkFile _ notifications
    (fun d s => mkStore (users s) (farmers s) (proposals s) d
                        (weights s) (transactions s) (draws s)).

Definition DB_WEIGHTS : file Weight.t :=
  mkFile _ weights
    (fun d s => mkStore (users s) (farmers s) (proposals s) (notifications s)
                        d (transactions s) (draws s)).

Definition DB_TRANSACTIONS : file Transaction.t :=
  mkFile _ transactions
    (fun d s => mkStore (users s) (farmers s) (proposals s) (notifications s)
                        (weights s) d (draws s)).

Definition drawn (s : Store) : Store :=
  mkStore (users s) (farmers s) (proposals s) (notifications s)
          (weights s) (transactions s) (S (draws s)).

(* ================================================================== *)
(** ** Handlers as computations *)

(** What a handler can raise: [HTTPException(status_code, detail)], the
    422 answer of request validation, and Python's [TypeError]. *)
Inductive exn : Type :=
  | HTTPException (status_code : Z) (detail : option string)
  | RequestValidationError
  | TypeError.

(** The error kinds of the specification, as the status codes the handlers
    use for them. *)
Definition NotFound : Z := 404.
Definition Forbidden : Z := 403.
Definition InvalidState : Z := 400.

Inductive outcome (A : Type) : Type :=
  | Return (a : A) (s : Store)
  | Raise (e : exn) (s : Store).
Arguments Return {A} _ _.
Arguments Raise {A} _ _.

Definition M (A : Type) : Type := Store -> outcome A.

Definition ret {A : Type} (a : A) : M A := fun s => Return a s.

Definition raise {A : Type} (e : exn) : M A := fun s => Raise e s.

Definition bind {A B : Type} (m : M A) (k : A -> M B) : M B :=
  fun s => match m s with
           | Return a s' => k a s'
           | Raise e s' => Raise e s'
           end.

Notation "x <- m ;; k" := (bind m (fun x => k))
  (at level 61, m at next level, right associativity).
Notation "m ;;; k" := (bind m (fun _ => k))
  (at level 61, right associativity).

(** The files a computation leaves behind, whichever way it ends. *)
Definition store_of {A : Type} (o : outcome A) : Store :=
  match o with
  | Return _ s => s
  | Raise _ s => s
  end.

Definition load_json {A : Type} (f : file A) : M (list A) :=
  fun s => Return (contents f s) s.

Definition save_json {A : Type} (f : file A) (data : list A) : M unit :=
  fun s => Return tt (overwrite f data s).

Definition append_record {A : Type} (f : file A) (record : A) : M unit :=
  data <- load_json f ;;
  save_json f (data ++ [record]).

(** The environment of a run: the n-th value drawn from it is a uuid, an
    epoch time or an ISO timestamp, depending on which call draws it;
    [str_float] is the text an f-string produces for a float. *)
Record Env : Type := mkEnv {
  uuid_at : nat -> string;
  time_at : nat -> float;
  isoformat_at : nat -> string;
  str_float : float -> string
}.

Section Backend.

Variable env : Env.

Definition uuid4 : M string := fun s => Return (uuid_at env (draws s)) (drawn s).
Definition time_time : M float := fun s => Return (time_at env (draws s)) (drawn s).
Definition datetime_now : M string :=
  fun s => Return (isoformat_at env (draws s)) (drawn s).

Definition save_notification (user_id : option string) (title : string)
    (d : details) : M unit :=
  i <- uuid4 ;;
  ts <- time_time ;;
  append_record DB_NOTIFS (Notification.mk i user_id title d ts false).

(* ------------------------------------------------------------------ *)
(** *** Proposals *)

Definition is_farmer (u_data : option User.t) : bool :=
  match u_data with
  | Some u => match User.role u with
              | Some r => r =? "farmer"
              | None => false
              end
  | None => false
  end.

Definition phone_of (u_data : option User.t) : string :=
  match u_data with
  | Some u => User.phone u
  | None => "Unknown"
  end.

Definition create_proposal (prop : ProposalIn.t) (user : string)
    : M (string * string) :=
  farmers <- load_json DB_FARMERS ;;
  match find (fun f => Listing.id f =? ProposalIn.supply_id prop) farmers with
  | None => raise (HTTPException 404 (Some "Supply not found"))
  | Some supply =>
      if negb (Listing.status supply =? "OPEN")
      then raise (HTTPException 400 (Some "Listing not open"))
      else
        users <- load_json DB_USERS ;;
        let u_data := find (fun u => User.username u =? user) users in
        if is_farmer u_data
        then raise (HTTPException 400 (Some "Farmers cannot buy"))
        else
          i <- uuid4 ;;
          ts <- time_time ;;
          let new_prop :=
            Proposal.mk i (ProposalIn.supply_id prop) user (phone_of u_data)
                        (ProposalIn.price_offer prop) (ProposalIn.message prop)
                        "PENDING" ts in
          append_record DB_PROPOSALS new_prop ;;;
          save_notification (Some (Listing.owner_id supply))
            ("New Offer: R$ " ++ str_float env (ProposalIn.price_offer prop))
            (DProposal new_prop) ;;;
          ret ("Sent", i)
  end.

Definition handle_proposal (pid action user : string) : M string :=
  proposals <- load_json DB_PROPOSALS ;;
  match find (fun p => Proposal.id p =? pid) proposals with
  | None => raise (HTTPException 404 (Some "Not found"))
  | Some prop =>
      proposals' <-
        (if action =? "reject" then
           ret (update_first (fun p => Proposal.id p =? pid)
                             (Proposal.set_status "REJECTED") proposals)
         else if action =? "accept" then
           let prop' := Proposal.set_status "ACCEPTED" prop in
           farmers <- load_json DB_FARMERS ;;
           match find (fun f => Listing.id f =? Proposal.supply_id prop') farmers with
           | Some _ =>
               save_json DB_FARMERS
                 (update_first (fun f => Listing.id f =? Proposal.supply_id prop')
                    (fun f => Listing.set_buyer_id (Proposal.buyer_id prop')
                                (Listing.set_status "AWAITING_PAYMENT" f))
                    farmers) ;;;
               save_notification (Some (Proposal.buyer_id prop'))
                 "Offer Accepted! Pay fee to lock." (DProposal prop')
           | None => ret tt
           end ;;;
           ret (update_first (fun p => Proposal.id p =? pid)
                             (Proposal.set_status "ACCEPTED") proposals)
         else ret proposals) ;;
      save_json DB_PROPOSALS proposals' ;;;
      ret "Updated"
  end.

Definition pay_fee (pid user : string)
    : M (string * option string * option string) :=
  proposals <- load_json DB_PROPOSALS ;;
  match find (fun p => Proposal.id p =? pid) proposals with
  | None => raise (HTTPException 403 None)
  | Some prop =>
      if negb (Proposal.buyer_id prop =? user)
      then raise (HTTPException 403 None)
      else
        farmers <- load_json DB_FARMERS ;;
        match find (fun f => Listing.id f =? Proposal.supply_id prop) farmers with
        | None => raise (HTTPException 404 None)
        | Some supply =>
            save_json DB_FARMERS
              (update_first (fun f => Listing.id f =? Proposal.supply_id prop)
                            (Listing.set_status "SOLD") farmers) ;;;
            save_json DB_PROPOSALS
              (update_first (fun p => Proposal.id p =? pid)
                            (Proposal.set_status "PAID") proposals) ;;;
            save_notification (Some (Listing.owner_id supply))
              "Deal Closed! Buyer paid fee."
              (DProposal (Proposal.set_status "PAID" prop)) ;;;
            ret ("Paid", Listing.nfe_file supply, Listing.gta_file supply)
        end
  end.

(* ------------------------------------------------------------------ *)
(** *** Weights *)

Definition quantity_or_0 (l : Listing.t) : Z :=
  match Listing.quantity l with
  | Some q => q
  | None => 0
  end.

Definition truthy (o : option string) : bool :=
  match o with
  | Some "" => false
  | Some _ => true
  | None => false
  end.

(** The answer of [add_weight_entry]: [total_weighed] and [remaining]. *)
Record WeightAdded : Type := mkWeightAdded {
  wa_message : string;
  total_weighed : Z;
  remaining : Z
}.

Definition add_weight_entry (listing_id : string) (weight : WeightEntry.t)
    (user : string) : M WeightAdded :=
  farmers <- load_json DB_FARMERS ;;
  match find (fun f => Listing.id f =? listing_id) farmers with
  | None => raise (HTTPException 404 (Some "Listing not found"))
  | Some listing =>
      if negb (Listing.owner_id listing =? user)
      then raise (HTTPException 403 (Some "Not authorized"))
      else if negb ((Listing.status listing =? "SOLD")
                    || (Listing.status listing =? "AWAITING_PAYMENT"))
      then raise (HTTPException 400 (Some "Listing must be reserved first"))
      else
        weights <- load_json DB_WEIGHTS ;;
        ts <- (if truthy (WeightEntry.timestamp weight)
               then ret (match WeightEntry.timestamp weight with
                         | Some t => t
                         | None => ""
                         end)
               else datetime_now) ;;
        let weight_data :=
          Weight.mk (WeightEntry.batch_number weight)
                    (WeightEntry.quantity weight)
                    (WeightEntry.total_weight weight) ts listing_id in
        let weights := (weights ++ [weight_data])%list in
        save_json DB_WEIGHTS weights ;;;
        let listing_weights :=
          filter (fun w => Weight.listing_id w =? listing_id) weights in
        let total_quantity := sum_int (map Weight.quantity listing_weights) in
        (if (quantity_or_0 listing <=? total_quantity)%Z
         then save_notification (Some user)
                ("Weighing completed for listing #" ++ listing_id)
                (DWeighing listing_id total_quantity)
         else ret tt) ;;;
        ret (mkWeightAdded "Weight entry added" total_quantity
                           (quantity_or_0 listing - total_quantity))
  end.

(** The [summary] of [get_weights]. *)
Record WeightSummary : Type := mkWeightSummary {
  total_batches : nat;
  total_quantity : Z;
  total_weight : float
}.

Definition get_weights (listing_id user : string)
    : M (list Weight.t * WeightSummary) :=
  weights <- load_json DB_WEIGHTS ;;
  let listing_weights :=
    filter (fun w => Weight.listing_id w =? listing_id) weights in
  let total_weight := sum_float (map Weight.total_weight listing_weights) in
  let total_quantity := sum_int (map Weight.quantity listing_weights) in
  ret (listing_weights,
       mkWeightSummary (List.length listing_weights) total_quantity
                       (round2 total_weight)).

Definition record_internal_weight (listing_id : string)
    (estimated_weight : float) (user : string) : M string :=
  farmers <- load_json DB_FARMERS ;;
  match find (fun f => Listing.id f =? listing_id) farmers with
  | None => raise (HTTPException 403 (Some "Not authorized"))
  | Some listing =>
      if negb (Listing.owner_id listing =? user)
      then raise (HTTPException 403 (Some "Not authorized"))
      else
        now <- time_time ;;
        save_json DB_FARMERS
          (update_first (fun f => Listing.id f =? listing_id)
                        (Listing.set_internal_weight estimated_weight now)
                        farmers) ;;;
        ret "Internal weight recorded (for reference only)"
  end.

Definition request_advance_payment (listing_id : string)
    (pauta_value : float) (user : string) : M string :=
  farmers <- load_json DB_FARMERS ;;
  match find (fun f => Listing.id f =? listing_id) farmers with
  | None => raise (HTTPException 403 (Some "Not authorized"))
  | Some listing =>
      if negb (Listing.owner_id listing =? user)
      then raise (HTTPException 403 (Some "Not authorized"))
      else
        save_json DB_FARMERS
          (update_first (fun f => Listing.id f =? listing_id)
                        (Listing.set_advance pauta_value "pending")
                        farmers) ;;;
        (if truthy (Listing.buyer_id listing)
         then save_notification (Listing.buyer_id listing)
                ("Advance payment requested: R$ " ++ str_float env pauta_value)
                (DAdvance listing_id pauta_value)
         else ret tt) ;;;
        ret "Advance payment requested"
  end.

(* ------------------------------------------------------------------ *)
(** *** Settlement *)

(** [Field(ge=0.48, le=0.55)] on [yield_rate]. *)
Definition yield_rate_in_range (y : float) : bool :=
  ((0.48 <=? y) && (y <=? 0.55))%float.

(** Validation of the request body against [FinalPayment]: defaults for
    the keys left out ([0], [0], [0.52]), and the range constraint on a
    [yield_rate] that was sent. *)
Definition parse_FinalPayment (b : FinalPaymentBody.t) : option FinalPayment.t :=
  let tf := match FinalPaymentBody.transport_fee b with
            | Some v => v
            | None => Some 0%float
            end in
  let tx := match FinalPaymentBody.funrural_tax b with
            | Some v => v
            | None => Some 0%float
            end in
  match FinalPaymentBody.yield_rate b with
  | Some y =>
      if yield_rate_in_range y
      then Some (FinalPayment.mk (FinalPaymentBody.nfe_document b)
                                 (FinalPaymentBody.gta_document b) tf tx y)
      else None
  | None =>
      Some (FinalPayment.mk (FinalPaymentBody.nfe_document b)
                            (FinalPaymentBody.gta_document b) tf tx 0.52%float)
  end.

(** [x - transport_fee - funrural_tax]: a fee sent as [null] makes the
    subtraction raise. *)
Definition minus_fees (x : float) (tf tx : option float) : M float :=
  match tf with
  | Some a => match tx with
              | Some b => ret (x - a - b)%float
              | None => raise TypeError
              end
  | None => raise TypeError
  end.

Definition finalize_transaction (listing_id : string)
    (payment : FinalPayment.t) (user : string) : M (string * Transaction.t) :=
  farmers <- load_json DB_FARMERS ;;
  match find (fun f => Listing.id f =? listing_id) farmers with
  | None => raise (HTTPException 403 (Some "Not authorized"))
  | Some listing =>
      if negb (Listing.owner_id listing =? user)
      then raise (HTTPException 403 (Some "Not authorized"))
      else
        proposals <- load_json DB_PROPOSALS ;;
        match find (fun p => (Proposal.supply_id p =? listing_id)
                             && (Proposal.status p =? "PAID")) proposals with
        | None => raise (HTTPException 400 (Some "No accepted proposal found"))
        | Some proposal =>
            transactions <- load_json DB_TRANSACTIONS ;;
            i <- uuid4 ;;
            ts <- time_time ;;
            let transaction :=
              Transaction.base i listing_id (Proposal.id proposal)
                (FinalPayment.nfe_document payment)
                (FinalPayment.gta_document payment)
                (FinalPayment.transport_fee payment)
                (FinalPayment.funrural_tax payment) ts in
            weights <- load_json DB_WEIGHTS ;;
            let listing_weights :=
              filter (fun w => Weight.listing_id w =? listing_id) weights in
            transaction <-
              (match listing_weights with
               | _ :: _ =>
                   let total_weight :=
                     sum_float (map Weight.total_weight listing_weights) in
                   let at_quantity := (total_weight / ARROBA)%float in
                   let final_amount :=
                     (at_quantity * FinalPayment.yield_rate payment
                      * Proposal.price_offer proposal)%float in
                   net <- minus_fees final_amount
                            (FinalPayment.transport_fee payment)
                            (FinalPayment.funrural_tax payment) ;;
                   ret (Transaction.update_live total_weight
                          (round2 at_quantity)
                          (FinalPayment.yield_rate payment)
                          (Proposal.price_offer proposal)
                          (round2 final_amount) (round2 net) transaction)
               | [] => ret (Transaction.update_dead transaction)
               end) ;;
            save_json DB_TRANSACTIONS (transactions ++ [transaction])%list ;;;
            save_json DB_FARMERS
              (update_first (fun f => Listing.id f =? listing_id)
                 (fun f => Listing.set_transaction_id (Transaction.id transaction)
                             (Listing.set_status "COMPLETED" f))
                 farmers) ;;;
            save_notification (Listing.buyer_id listing)
              ("Transaction completed - Listing #" ++ listing_id)
              (DTransaction transaction) ;;;
            save_notification (Listing.buyer_id listing)
              ("Deposit refunded - Listing #" ++ listing_id)
              (DTransactionRef (Transaction.id transaction)) ;;;
            ret ("Transaction finalized", transaction)
        end
  end.

(** The route: FastAPI validates the body before the handler runs. *)
Definition finalize_endpoint (listing_id : string) (body : FinalPaymentBody.t)
    (user : string) : M (string * Transaction.t) :=
  match parse_FinalPayment body with
  | Some payment => finalize_transaction listing_id payment user
  | None => raise RequestValidationError
  end.

(** The [calculation] in the answer of [submit_slaughterhouse_weight]. *)
Record Calculation : Type := mkCalculation {
  c_final_weight : float;
  c_at_quantity : float;
  c_final_amount : float
}.

Definition submit_slaughterhouse_weight (transaction_id : string)
    (final_weight yield_rate price_per_unit : float) (user : string)
    : M (string * Calculation) :=
  transactions <- load_json DB_TRANSACTIONS ;;
  match find (fun t => Transaction.id t =? transaction_id) transactions with
  | None => raise (HTTPException 404 (Some "Transaction not found"))
  | Some transaction =>
      let at_quantity := (final_weight / ARROBA)%float in
      let final_amount := (at_quantity * yield_rate * price_per_unit)%float in
      now <- time_time ;;
      save_json DB_TRANSACTIONS
        (update_first (fun t => Transaction.id t =? transaction_id)
           (Transaction.update_slaughterhouse final_weight (round2 at_quantity)
              yield_rate price_per_unit (round2 final_amount) now)
           transactions) ;;;
      farmers <- load_json DB_FARMERS ;;
      match find (fun f => Listing.id f =? Transaction.listing_id transaction)
                 farmers with
      | Some listing =>
          save_notification (Some (Listing.owner_id listing))
            "Final weighing completed"
            (DFinalWeighing transaction_id final_amount)
      | None => ret tt
      end ;;;
      ret ("Final weight submitted",
           mkCalculation final_weight (round2 at_quantity) (round2 final_amount))
  end.

Definition get_transaction (listing_id user : string) : M Transaction.t :=
  transactions <- load_json DB_TRANSACTIONS ;;
  match find (fun t => Transaction.listing_id t =? listing_id) transactions with
  | None => raise (HTTPException 404 (Some "Transaction not found"))
  | Some transaction => ret transaction
  end.

(* ------------------------------------------------------------------ *)
(** *** Sequences of requests *)

(** One request to the API, with its authenticated user. *)
Inductive call : Type :=
  | CreateProposal (prop : ProposalIn.t) (user : string)
  | HandleProposal (pid action user : string)
  | PayFee (pid user : string)
  | AddWeightEntry (listing_id : string) (weight : WeightEntry.t) (user : string)
  | GetWeights (listing_id user : string)
  | RecordInternalWeight (listing_id : string) (w : float) (user : string)
  | RequestAdvance (listing_id : string) (v : float) (user : string)
  | Finalize (listing_id : string) (body : FinalPaymentBody.t) (user : string)
  | SlaughterhouseWeight (transaction_id : string) (w y p : float) (user : string)
  | GetTransaction (listing_id user : string).

(** The files after serving a request (a request that fails leaves what it
    had written before failing). *)
Definition serve (c : call) (s : Store) : Store :=
  match c with
  | CreateProposal prop user => store_of (create_proposal prop user s)
  | HandleProposal pid action user => store_of (handle_proposal pid action user s)
  | PayFee pid user => store_of (pay_fee pid user s)
  | AddWeightEntry lid w user => store_of (add_weight_entry lid w user s)
  | GetWeights lid user => store_of (get_weights lid user s)
  | RecordInternalWeight lid w user => store_of (record_internal_weight lid w user s)
  | RequestAdvance lid v user => store_of (request_advance_payment lid v user s)
  | Finalize lid body user => store_of (finalize_endpoint lid body user s)
  | SlaughterhouseWeight tid w y p user =>
      store_of (submit_slaughterhouse_weight tid w y p user s)
  | GetTransaction lid user => store_of (get_transaction lid user s)
  end.

Definition serve_all (cs : list call) (s : Store) : Store :=
  fold_left (fun st c => serve c st) cs s.

End Backend.

(* ================================================================== *)
(** ** Reading back: inboxes and received proposals *)

(** [sorted(l, key=..., reverse=True)] on float keys: a stable sort into
    descending order (records with equal keys keep their order in [l]).
    Python's sort is determined by these two properties whenever the keys
    are comparable numbers, which timestamps drawn from [time.time()]
    are. *)
Fixpoint insert_desc {A : Type} (key : A -> float) (x : A) (l : list A) : list A :=
  match l with
  | [] => [x]
  | y :: r => if (key x <? key y)%float then y :: insert_desc key x r
              else x :: y :: r
  end.

Fixpoint sorted_desc {A : Type} (key : A -> float) (l : list A) : list A :=
  match l with
  | [] => []
  | x :: r => insert_desc key x (sorted_desc key r)
  end.

(** [GET /api/notifications]. *)
Definition get_notifs (user : string) : M (list Notification.t) :=
  notifs <- load_json DB_NOTIFS ;;
  ret (sorted_desc Notification.timestamp
         (filter (fun n => match Notification.user_id n with
                           | Some u => u =? user
                           | None => false
                           end) notifs)).

(** [GET /api/my-proposals]: the proposals made on the caller's listings. *)
Definition get_received_proposals (user : string) : M (list Proposal.t) :=
  farmers <- load_json DB_FARMERS ;;
  proposals <- load_json DB_PROPOSALS ;;
  let my_supply_ids :=
    map Listing.id (filter (fun f => Listing.owner_id f =? user) farmers) in
  let received :=
    filter (fun p => existsb (fun i => Proposal.supply_id p =? i) my_supply_ids)
           proposals in
  ret (sorted_desc Proposal.timestamp received).

(* ================================================================== *)
(** ** Administration: the reference data *)

(** The dependency [get_current_admin]: the caller's user record, provided
    its role is admin. *)
Definition get_current_admin (current_user : string) : M User.t :=
  users <- load_json DB_USERS ;;
  match find (fun u => User.username u =? current_user) users with
  | Some user =>
      match User.role user with
      | Some r => if r =? "admin" then ret user
                  else raise (HTTPException 403 (Some "Admin required"))
      | None => raise (HTTPException 403 (Some "Admin required"))
      end
  | None => raise (HTTPException 403 (Some "Admin required"))
  end.

(** [DELETE /api/admin/user/{username}], after the admin dependency. *)
Definition del_user (username : string) (admin : string) : M string :=
  _ <- get_current_admin admin ;;
  users <- load_json DB_USERS ;;
  save_json DB_USERS
    (filter (fun u => negb (User.username u =? username)) users) ;;;
  ret "Deleted".

(** A JSON value as Python holds it: strings, lists and dicts, and
    [PyOther] for the numbers, booleans and [null] that the reference data
    never contain. *)
#[warnings="-register-all"]
Inductive pyval : Type :=
  | PyStr (s : string)
  | PyList (items : list pyval)
  | PyDict (entries : list (string * pyval))
  | PyOther.

(** [references.json]: not there, there but not parseable, or holding a
    value. *)
Inductive json_file : Type :=
  | Absent
  | Unreadable
  | Holds (v : pyval).

(** What [load_json] returns for such a file: its value when that is a
    list, and the empty list in every other case. *)
Definition load_json_any (f : json_file) : list pyval :=
  match f with
  | Holds (PyList items) => items
  | _ => []
  end.

(** How a reference-data handler ends: with an answer, with one of the
    exceptions above, or with a [KeyError]; in each case with the file as
    it then is.  [Unmodelled] stands for the runs on data of another shape
    than the handlers write (a catalog that is not a list of strings, a
    city that is not a dict of strings), whose Python behaviour is not
    embedded here. *)
Inductive refs_outcome (A : Type) : Type :=
  | Answered (a : A) (f : json_file)
  | Failed (e : exn) (f : json_file)
  | FailedKey (key : string) (f : json_file)
  | Unmodelled (f : json_file).
Arguments Answered {A} _ _.
Arguments Failed {A} _ _.
Arguments FailedKey {A} _ _.
Arguments Unmodelled {A} _.

Definition default_refs : pyval :=
  PyDict [("breeds", PyList [PyStr "Nelore"; PyStr "Angus"]);
          ("custom_cities", PyList [])].

(** [get_refs]: writes the defaults when the file is not there, then
    answers [load_json(DB_REFS)]. *)
Definition get_refs (f : json_file) : pyval * json_file :=
  let f' := match f with
            | Absent => Holds default_refs
            | _ => f
            end in
  (PyList (load_json_any f'), f').

(** [v[key]] for a string key: a dict looks the key up and raises
    [KeyError] when it is missing; a list, a string or anything else raises
    [TypeError]. *)
Inductive lookup : Type :=
  | Got (v : pyval)
  | NoKey (key : string)
  | NotSubscriptable.

Definition getitem (v : pyval) (key : string) : lookup :=
  match v with
  | PyDict entries =>
      match find (fun kv => fst kv =? key) entries with
      | Some kv => Got (snd kv)
      | None => NoKey key
      end
  | _ => NotSubscriptable
  end.

(** The dict [v] once the value under [key] has been replaced (or mutated in
    place) by [x]. *)
Definition with_item (v : pyval) (key : string) (x : pyval) : pyval :=
  match v with
  | PyDict entries =>
      PyDict (if existsb (fun kv => fst kv =? key) entries
              then map (fun kv => if fst kv =? key then (key, x) else kv) entries
              else (entries ++ [(key, x)])%list)
  | _ => v
  end.

(** [b == name] for a string [name]. *)
Definition is_str (name : string) (b : pyval) : bool :=
  match b with
  | PyStr s => s =? name
  | _ => false
  end.

(** [l.sort()] on a list of strings. *)
Fixpoint insert_str (x : string) (l : list string) : list string :=
  match l with
  | [] => [x]
  | y :: r => if String.ltb x y then x :: y :: r else y :: insert_str x r
  end.

Definition strings_of (l : list pyval) : option (list string) :=
  fold_right (fun v acc => match v, acc with
                           | PyStr s, Some r => Some (s :: r)
                           | _, _ => None
                           end) (Some []) l.

Definition sort_strs (l : list pyval) : option (list pyval) :=
  option_map (fun ss => map PyStr (fold_right insert_str [] ss)) (strings_of l).

(** The handler bodies, on what [get_refs] returned. *)
Definition add_breed_body (name : string) (refs : pyval) (f : json_file)
    : refs_outcome string :=
  match getitem refs "breeds" with
  | Got (PyList breeds) =>
      if existsb (is_str name) breeds then Answered "Added" f
      else
        match sort_strs (breeds ++ [PyStr name]) with
        | Some sorted =>
            Answered "Added" (Holds (with_item refs "breeds" (PyList sorted)))
        | None => Unmodelled f
        end
  | Got _ => Unmodelled f
  | NoKey key => FailedKey key f
  | NotSubscriptable => Failed TypeError f
  end.

Definition del_breed_body (name : string) (refs : pyval) (f : json_file)
    : refs_outcome string :=
  match getitem refs "breeds" with
  | Got (PyList breeds) =>
      Answered "Deleted"
        (Holds (with_item refs "breeds"
                  (PyList (filter (fun b => negb (is_str name b)) breeds))))
  | Got _ => Unmodelled f
  | NoKey key => FailedKey key f
  | NotSubscriptable => Failed TypeError f
  end.

Definition add_city_body (state name : string) (refs : pyval) (f : json_file)
    : refs_outcome string :=
  match getitem refs "custom_cities" with
  | Got (PyList cities) =>
      Answered "Added"
        (Holds (with_item refs "custom_cities"
                  (PyList (cities ++ [PyDict [("state", PyStr state);
                                              ("name", PyStr name)]]))))
  | Got _ => Unmodelled f
  | NoKey key => FailedKey key f
  | NotSubscriptable => Failed TypeError f
  end.

(** [not (c['state'] == s and c['name'] == n)] on one city; [None] where a
    lookup raises or the city is not a dict of strings. *)
Definition keeps_city (s n : string) (c : pyval) : option bool :=
  match getitem c "state" with
  | Got (PyStr st) =>
      if st =? s
      then match getitem c "name" with
           | Got (PyStr nm) => Some (negb (nm =? n))
           | _ => None
           end
      else Some true
  | _ => None
  end.

Fixpoint filter_cities (s n : string) (cities : list pyval) : option (list pyval) :=
  match cities with
  | [] => Some []
  | c :: r =>
      match keeps_city s n c, filter_cities s n r with
      | Some true, Some r' => Some (c :: r')
      | Some false, Some r' => Some r'
      | _, _ => None
      end
  end.

Definition del_city_body (s n : string) (refs : pyval) (f : json_file)
    : refs_outcome string :=
  match getitem refs "custom_cities" with
  | Got (PyList cities) =>
      match filter_cities s n cities with
      | Some kept =>
          Answered "Deleted" (Holds (with_item refs "custom_cities" (PyList kept)))
      | None => Unmodelled f
      end
  | Got _ => Unmodelled f
  | NoKey key => FailedKey key f
  | NotSubscriptable => Failed TypeError f
  end.

(** An endpoint behind [Depends(get_current_admin)]: the dependency reads
    [users.json]; the handler runs only when it succeeds. *)
Definition as_admin {A : Type} (admin : string) (s : Store)
    (handler : json_file -> refs_outcome A) (f : json_file) : refs_outcome A :=
  match get_current_admin admin s with
  | Return _ _ => handler f
  | Raise e _ => Failed e f
  end.

(** [GET /api/system/references] and the four administration routes. *)
Definition sys_refs (f : json_file) : refs_outcome pyval :=
  let '(refs, f') := get_refs f in Answered refs f'.

Definition add_breed (name admin : string) (s : Store)
    : json_file -> refs_outcome string :=
  as_admin admin s (fun f => let '(refs, f') := get_refs f in
                             add_breed_body name refs f').

Definition del_breed (name admin : string) (s : Store)
    : json_file -> refs_outcome string :=
  as_admin admin s (fun f => let '(refs, f') := get_refs f in
                             del_breed_body name refs f').

Definition add_city (state name admin : string) (s : Store)
    : json_file -> refs_outcome string :=
  as_admin admin s (fun f => let '(refs, f') := get_refs f in
                             add_city_body state name refs f').

Definition del_city (state name admin : string) (s : Store)
    : json_file -> refs_outcome string :=
  as_admin admin s (fun f => let '(refs, f') := get_refs f in
                             del_city_body state name refs f').

(* ================================================================== *)
(** ** A sample deployment *)

(** A sample environment: uuids [uuid-0], [uuid-1], ... in drawing order, a
    clock that reads [n + 1] at the n-th draw, a fixed ISO timestamp, and
    the text of the one price the sample requests use. *)
Definition sample_uuid (n : nat) : string :=
  "uuid-" ++ NilEmpty.string_of_uint (Nat.to_uint n).

Definition sample_time (n : nat) : float :=
  SF2Prim (S754_finite false (Pos.of_succ_nat n) 0).

Definition sample_isoformat (n : nat) : string := "2024-05-01T08:00:00".

Definition sample_str_float (x : float) : string :=
  if (x =? 300)%float then "300.0" else "nan".

(** One farmer with one open listing of ten head, and two buyers. *)
Definition sample_listing : Listing.t :=
  Listing.mk "L1" "farmer1" "OPEN" "Nelore" (Some 10%Z) None None None None
             None None None None.

Definition sample_store : Store :=
  mkStore [User.mk "farmer1" (Some "farmer") "111";
           User.mk "buyer1" (Some "user") "222";
           User.mk "buyer2" (Some "user") "333"]
          [sample_listing] [] [] [] [] 0.

Definition sample_offer : ProposalIn.t := ProposalIn.mk "L1" 300%float (Some "").

Definition sample_body : FinalPaymentBody.t :=
  FinalPaymentBody.mk "nfe.pdf" "gta.pdf" (Some (Some 200%float))
                      (Some (Some 100%float)) (Some 0.52%float).

Definition sample_env : Env :=
  mkEnv sample_uuid sample_time sample_isoformat sample_str_float.

Definition sample_serve_all : list call -> Store -> Store :=
  serve_all sample_env.

(** Offer, acceptance and deposit, in lifecycle order. *)
Definition sample_sale : list call :=
  [CreateProposal sample_offer "buyer1";
   HandleProposal "uuid-0" "accept" "farmer1";
   PayFee "uuid-0" "buyer1"].

(** The same, followed by two weighings of 1400 and 1600 mass units. *)
Definition sample_weighed_sale : list call :=
  (sample_sale ++
   [AddWeightEntry "L1" (WeightEntry.mk 1 5 1400%float None) "farmer1";
    AddWeightEntry "L1" (WeightEntry.mk 2 5 1600%float None) "farmer1"])%list.

(** The stores the sample requests lead through. *)
Definition sample_offered : Store :=
  Eval vm_compute in
    sample_serve_all [CreateProposal sample_offer "buyer1"] sample_store.

Definition sample_accepted : Store :=
  Eval vm_compute in
    sample_serve_all [HandleProposal "uuid-0" "accept" "farmer1"] sample_offered.

Definition sample_sold : Store :=
  Eval vm_compute in sample_serve_all sample_sale sample_store.

Definition sample_half_weighed : Store :=
  Eval vm_compute in
    sample_serve_all
      [AddWeightEntry "L1" (WeightEntry.mk 1 5 1400%float None) "farmer1"]
      sample_sold.

Definition sample_weighed : Store :=
  Eval vm_compute in sample_serve_all sample_weighed_sale sample_store.

(** The listing deleted by the administrator while its offer stands. *)
Definition sample_orphaned : Store := overwrite DB_FARMERS [] sample_offered.

(** Finalized without any weighing: the dead-weight branch. *)
Definition sample_dead_weight : Store :=
  Eval vm_compute in
    sample_serve_all [Finalize "L1" sample_body "farmer1"] sample_sold.

(** The records of the sample at those stages. *)
Definition sample_pending : Proposal.t :=
  Proposal.mk "uuid-0" "L1" "buyer1" "222" 300%float (Some "") "PENDING" 2%float.

Definition sample_paid : Proposal.t := Proposal.set_status "PAID" sample_pending.

Definition sample_listing_accepted : Listing.t :=
  Listing.set_buyer_id "buyer1" (Listing.set_status "AWAITING_PAYMENT" sample_listing).

Definition sample_listing_sold : Listing.t :=
  Listing.set_status "SOLD" sample_listing_accepted.

Definition sample_payment : FinalPayment.t :=
  FinalPayment.mk "nfe.pdf" "gta.pdf" (Some 200%float) (Some 100%float) 0.52%float.

(** The sample deployment with an administrator account. *)
Definition sample_root : User.t := User.mk "root" (Some "admin") "000".

Definition sample_admin_store : Store :=
  overwrite DB_USERS (sample_root :: users sample_sold) sample_sold.

(** The finalized transaction of the dead-weight sample. *)
Definition sample_awaiting : Transaction.t :=
  Transaction.update_dead
    (Transaction.base "uuid-8" "L1" "uuid-0" "nfe.pdf" "gta.pdf"
       (Some 200%float) (Some 100%float) 10%float).






(** Projections used to observe a store. *)
Definition listing_status (listing_id : string) (s : Store) : option string :=
  option_map Listing.status
    (find (fun f => Listing.id f =? listing_id) (farmers s)).

Definition proposal_status (pid : string) (s : Store) : option string :=
  option_map Proposal.status
    (find (fun p => Proposal.id p =? pid) (proposals s)).

Definition transactions_of (listing_id : string) (s : Store) : list Transaction.t :=
  filter (fun t => Transaction.listing_id t =? listing_id) (transactions s).

(** The lifecycle orders of the specification:
    [OPEN < AWAITING_PAYMENT < SOLD < COMPLETED] for a listing. *)
Definition listing_rank (st : string) : option nat :=
  if st =? "OPEN" then Some 0%nat
  else if st =? "AWAITING_PAYMENT" then Some 1%nat
  else if st =? "SOLD" then Some 2%nat
  else if st =? "COMPLETED" then Some 3%nat
  else None.

(* ================================================================== *)
(** ** Lists: first match and in-place update *)

Lemma find_update_first {A : Type} (p : A -> bool) (f : A -> A) (l : list A) :
  (forall x, p x = true -> p (f x) = true) ->
  find p (update_first p f l) = option_map f (find p l).
Proof.
  intros Hp. induction l as [|x r IH]; cbn; [reflexivity|].
  destruct (p x) eqn:Hx; cbn.
  - now rewrite (Hp x Hx).
  - now rewrite Hx.
Qed.


Lemma filter_nil_iff {A : Type} (p : A -> bool) (l : list A) :
  filter p l = [] <-> forall x, In x l -> p x = false.
Proof.
  induction l as [|x r IH]; cbn.
  - split; [intros _ y []|reflexivity].
  - destruct (p x) eqn:Hx.
    + split; [discriminate|]. intros H. specialize (H x (or_introl eq_refl)). congruence.
    + rewrite IH. split.
      * intros H y [<-|Hy]; auto.
      * intros H y Hy. apply H. now right.
Qed.

Lemma sum_int_snoc (l : list Z) (x : Z) :
  sum_int (l ++ [x]) = (sum_int l + x)%Z.
Proof. unfold sum_int. now rewrite fold_left_app. Qed.

Lemma filter_snoc {A : Type} (p : A -> bool) (l : list A) (x : A) :
  filter p (l ++ [x]) = if p x then (filter p l ++ [x])%list else filter p l.
Proof.
  rewrite filter_app. cbn. destruct (p x); [reflexivity|apply app_nil_r].
Qed.

Lemma store_eta (s : Store) :
  mkStore (users s) (farmers s) (proposals s) (notifications s) (weights s)
          (transactions s) (draws s) = s.
Proof. now destruct s. Qed.

Lemma eqb_false_of_neq (a b : string) : a <> b -> (a =? b) = false.
Proof. intros H. now apply String.eqb_neq. Qed.

(** Unfolds the monadic plumbing of a handler, leaving its tests standing. *)
Ltac plumbing :=
  cbv [bind ret raise load_json save_json append_record save_notification
       uuid4 time_time datetime_now contents overwrite drawn store_of
       DB_USERS DB_FARMERS DB_PROPOSALS DB_NOTIFS DB_WEIGHTS DB_TRANSACTIONS];
  cbn [users farmers proposals notifications weights transactions draws].

(** The same for a handler with many writes: on a store given by its
    files, so that every read of a file reduces at once. *)
Ltac plumbing_on s :=
  destruct s;
  cbn [users farmers proposals notifications weights transactions draws] in *;
  cbv [bind ret raise load_json save_json append_record save_notification
       uuid4 time_time datetime_now contents overwrite drawn store_of
       DB_USERS DB_FARMERS DB_PROPOSALS DB_NOTIFS DB_WEIGHTS DB_TRANSACTIONS
       users farmers proposals notifications weights transactions draws].

Section Properties.

Variable env : Env.

(* ------------------------------------------------------------------ *)
(** *** Responding to a proposal *)

(** C9: for every action other than ['accept'] and ['reject'], responding to
    an existing proposal answers ["Updated"] and leaves every file as it
    was: the proposal keeps its status, no listing changes, no notification
    is written. *)
Theorem C9_other_action_is_silent_noop
    (s : Store) (pid action user : string) (prop : Proposal.t) :
  find (fun p => Proposal.id p =? pid) (proposals s) = Some prop ->
  action <> "accept" ->
  action <> "reject" ->
  handle_proposal env pid action user s = Return "Updated" s.
Proof.
  intros Hfind Hacc Hrej.
  unfold handle_proposal. plumbing.
  rewrite Hfind, (eqb_false_of_neq _ _ Hrej), (eqb_false_of_neq _ _ Hacc).
  now rewrite store_eta.
Qed.

(* ------------------------------------------------------------------ *)
(** *** Reading weights *)

(** C10: querying weights never fails, for any listing id and any user;
    when no entry carries that id (whether or not such a listing exists)
    the answer is the empty list with a summary of 0 batches, quantity 0
    and weight 0; and the answer is a function of [weights.json] alone:
    neither the listings nor the caller are consulted. *)
Theorem C10_get_weights_never_fails (s : Store) (listing_id user : string) :
  (exists r, get_weights listing_id user s = Return r s) /\
  ((forall w, In w (weights s) -> Weight.listing_id w <> listing_id) ->
   get_weights listing_id user s
   = Return ([], mkWeightSummary 0 0 0%float) s) /\
  (forall (s' : Store) (user' : string),
     weights s' = weights s ->
     exists r, get_weights listing_id user s = Return r s /\
               get_weights listing_id user' s' = Return r s').
Proof.
  unfold get_weights. plumbing. repeat split.
  - eauto.
  - intros Hnone.
    assert (Hnil : filter (fun w => Weight.listing_id w =? listing_id) (weights s) = []).
    { apply filter_nil_iff. intros w Hw. apply eqb_false_of_neq. now apply Hnone. }
    rewrite Hnil. reflexivity.
  - intros s' user' Hw. rewrite Hw. eauto.
Qed.

(* ------------------------------------------------------------------ *)
(** *** Paying the reservation fee *)

(** The successful run of [pay_fee], shared by the statements below. *)
Lemma pay_fee_pays (s : Store) (pid : string) (prop : Proposal.t)
    (supply : Listing.t) :
  find (fun p => Proposal.id p =? pid) (proposals s) = Some prop ->
  find (fun f => Listing.id f =? Proposal.supply_id prop) (farmers s)
  = Some supply ->
  exists s' n,
    pay_fee env pid (Proposal.buyer_id prop) s
    = Return ("Paid", Listing.nfe_file supply, Listing.gta_file supply) s' /\
    find (fun f => Listing.id f =? Proposal.supply_id prop) (farmers s')
    = Some (Listing.set_status "SOLD" supply) /\
    find (fun p => Proposal.id p =? pid) (proposals s')
    = Some (Proposal.set_status "PAID" prop) /\
    notifications s' = (notifications s ++ [n])%list /\
    Notification.user_id n = Some (Listing.owner_id supply) /\
    Notification.message n = "Deal Closed! Buyer paid fee.".
Proof.
  intros Hp Hl. unfold pay_fee. plumbing.
  rewrite Hp. cbv beta iota.
  rewrite String.eqb_refl. cbn [negb]. rewrite Hl.
  eexists. eexists. split; [reflexivity|].
  cbn [farmers proposals notifications]. repeat split.
  - rewrite find_update_first by (intros x Hx; exact Hx). now rewrite Hl.
  - rewrite find_update_first by (intros x Hx; exact Hx). now rewrite Hp.
Qed.

(** C4 (as the code has it): paying fails with Forbidden (403), the files
    untouched, when the proposal is missing or when the caller is not its
    buyer; it fails with NotFound (404), the files untouched, when the
    proposal is the caller's but its listing is missing; otherwise it
    answers the listing's [nfe_file] and [gta_file] (possibly unset), sets
    the listing's status to SOLD and the proposal's to PAID, and appends one
    notification addressed to the listing's owner. *)
Theorem C4_pay_fee_outcomes (s : Store) (pid user : string) :
  (find (fun p => Proposal.id p =? pid) (proposals s) = None ->
   pay_fee env pid user s = Raise (HTTPException Forbidden None) s) /\
  (forall prop,
     find (fun p => Proposal.id p =? pid) (proposals s) = Some prop ->
     Proposal.buyer_id prop <> user ->
     pay_fee env pid user s = Raise (HTTPException Forbidden None) s) /\
  (forall prop,
     find (fun p => Proposal.id p =? pid) (proposals s) = Some prop ->
     Proposal.buyer_id prop = user ->
     find (fun f => Listing.id f =? Proposal.supply_id prop) (farmers s) = None ->
     pay_fee env pid user s = Raise (HTTPException NotFound None) s) /\
  (forall prop supply,
     find (fun p => Proposal.id p =? pid) (proposals s) = Some prop ->
     Proposal.buyer_id prop = user ->
     find (fun f => Listing.id f =? Proposal.supply_id prop) (farmers s)
     = Some supply ->
     exists s' n,
       pay_fee env pid user s
       = Return ("Paid", Listing.nfe_file supply, Listing.gta_file supply) s' /\
       find (fun f => Listing.id f =? Proposal.supply_id prop) (farmers s')
       = Some (Listing.set_status "SOLD" supply) /\
       find (fun p => Proposal.id p =? pid) (proposals s')
       = Some (Proposal.set_status "PAID" prop) /\
       notifications s' = (notifications s ++ [n])%list /\
       Notification.user_id n = Some (Listing.owner_id supply) /\
       Notification.message n = "Deal Closed! Buyer paid fee.").
Proof.
  unfold pay_fee. plumbing. repeat split.
  - intros ->. reflexivity.
  - intros prop -> Hneq. now rewrite (eqb_false_of_neq _ _ Hneq).
  - intros prop Hp <- Hl. rewrite Hp. cbv beta iota.
    rewrite String.eqb_refl. cbn [negb]. now rewrite Hl.
  - intros prop supply Hp <- Hl. fold (pay_fee env pid (Proposal.buyer_id prop) s).
    exact (pay_fee_pays s pid prop supply Hp Hl).
Qed.

(* ------------------------------------------------------------------ *)
(** *** Submitting a proposal *)

(** C6 (as the code has it): submitting fails with NotFound (404) when the
    listing is unknown and with InvalidState (400) when its status is not
    OPEN; when the listing is open and the submitter's role is farmer it
    fails with status 400 as well ("Farmers cannot buy"), not 403; in all
    three cases the files are untouched.  Otherwise it appends a PENDING
    proposal of the submitter carrying the submitter's phone (["Unknown"]
    when the user record is missing), appends one notification addressed to
    the listing's owner, and answers the new proposal's id. *)
Theorem C6_create_proposal_outcomes
    (s : Store) (prop : ProposalIn.t) (user : string) :
  (find (fun f => Listing.id f =? ProposalIn.supply_id prop) (farmers s) = None ->
   create_proposal env prop user s
   = Raise (HTTPException NotFound (Some "Supply not found")) s) /\
  (forall supply,
     find (fun f => Listing.id f =? ProposalIn.supply_id prop) (farmers s)
     = Some supply ->
     Listing.status supply <> "OPEN" ->
     create_proposal env prop user s
     = Raise (HTTPException InvalidState (Some "Listing not open")) s) /\
  (forall supply u,
     find (fun f => Listing.id f =? ProposalIn.supply_id prop) (farmers s)
     = Some supply ->
     Listing.status supply = "OPEN" ->
     find (fun u => User.username u =? user) (users s) = Some u ->
     User.role u = Some "farmer" ->
     create_proposal env prop user s
     = Raise (HTTPException 400 (Some "Farmers cannot buy")) s) /\
  (forall supply,
     find (fun f => Listing.id f =? ProposalIn.supply_id prop) (farmers s)
     = Some supply ->
     Listing.status supply = "OPEN" ->
     is_farmer (find (fun u => User.username u =? user) (users s)) = false ->
     exists s' new_prop n,
       create_proposal env prop user s = Return ("Sent", Proposal.id new_prop) s' /\
       proposals s' = (proposals s ++ [new_prop])%list /\
       Proposal.status new_prop = "PENDING" /\
       Proposal.supply_id new_prop = ProposalIn.supply_id prop /\
       Proposal.buyer_id new_prop = user /\
       Proposal.price_offer new_prop = ProposalIn.price_offer prop /\
       Proposal.buyer_contact new_prop
       = phone_of (find (fun u => User.username u =? user) (users s)) /\
       farmers s' = farmers s /\
       notifications s' = (notifications s ++ [n])%list /\
       Notification.user_id n = Some (Listing.owner_id supply) /\
       Notification.payload n = DProposal new_prop).
Proof.
  unfold create_proposal. plumbing. repeat split.
  - intros ->. reflexivity.
  - intros supply Hl Hst. rewrite Hl. cbv beta iota.
    now rewrite (eqb_false_of_neq _ _ Hst).
  - intros supply u Hl Hst Hu Hrole. rewrite Hl. cbv beta iota.
    rewrite Hst, String.eqb_refl. cbn [negb]. rewrite Hu.
    unfold is_farmer. rewrite Hrole, String.eqb_refl. reflexivity.
  - intros supply Hl Hst Hu. rewrite Hl. cbv beta iota.
    rewrite Hst, String.eqb_refl. cbn [negb]. rewrite Hu.
    eexists.
    exists (Proposal.mk (uuid_at env (draws s)) (ProposalIn.supply_id prop) user
              (phone_of (find (fun u => User.username u =? user) (users s)))
              (ProposalIn.price_offer prop) (ProposalIn.message prop)
              "PENDING" (time_at env (S (draws s)))).
    eexists. cbn [Proposal.id]. split; [reflexivity|].
    cbn [farmers proposals notifications]. repeat split.
Qed.

(* ------------------------------------------------------------------ *)
(** *** Recording a weight entry *)

(** C7: recording a weight entry fails with NotFound for an unknown listing,
    with Forbidden when the caller is not the listing's owner, and with
    InvalidState unless the listing's status is AWAITING_PAYMENT or SOLD,
    the files untouched.  Otherwise it appends the entry (stamped with the
    current instant when the caller gave no timestamp) and answers the
    cumulative quantity over all entries of the listing, the new one
    included, with [remaining] = declared quantity - cumulative, not
    clamped; and it appends a "Weighing completed" notification to the
    caller exactly when the cumulative quantity has reached the declared
    one. *)
Theorem C7_add_weight_entry_outcomes
    (s : Store) (listing_id user : string) (weight : WeightEntry.t) :
  (find (fun f => Listing.id f =? listing_id) (farmers s) = None ->
   add_weight_entry env listing_id weight user s
   = Raise (HTTPException NotFound (Some "Listing not found")) s) /\
  (forall listing,
     find (fun f => Listing.id f =? listing_id) (farmers s) = Some listing ->
     Listing.owner_id listing <> user ->
     add_weight_entry env listing_id weight user s
     = Raise (HTTPException Forbidden (Some "Not authorized")) s) /\
  (forall listing,
     find (fun f => Listing.id f =? listing_id) (farmers s) = Some listing ->
     Listing.owner_id listing = user ->
     Listing.status listing <> "AWAITING_PAYMENT" ->
     Listing.status listing <> "SOLD" ->
     add_weight_entry env listing_id weight user s
     = Raise (HTTPException InvalidState (Some "Listing must be reserved first")) s) /\
  (forall listing,
     find (fun f => Listing.id f =? listing_id) (farmers s) = Some listing ->
     Listing.owner_id listing = user ->
     Listing.status listing = "AWAITING_PAYMENT" \/ Listing.status listing = "SOLD" ->
     exists s' entry,
       let cumulative :=
         (sum_int (map Weight.quantity
                     (filter (fun w => (Weight.listing_id w =? listing_id)%string)
                             (weights s)))
          + WeightEntry.quantity weight)%Z in
       add_weight_entry env listing_id weight user s
       = Return (mkWeightAdded "Weight entry added" cumulative
                               (quantity_or_0 listing - cumulative)) s' /\
       weights s' = (weights s ++ [entry])%list /\
       Weight.listing_id entry = listing_id /\
       Weight.batch_number entry = WeightEntry.batch_number weight /\
       Weight.quantity entry = WeightEntry.quantity weight /\
       Weight.total_weight entry = WeightEntry.total_weight weight /\
       (WeightEntry.timestamp weight = None ->
        Weight.timestamp entry = isoformat_at env (draws s)) /\
       (forall t, WeightEntry.timestamp weight = Some t -> t <> "" ->
                  Weight.timestamp entry = t) /\
       farmers s' = farmers s /\
       ((quantity_or_0 listing <= cumulative)%Z ->
        exists n, notifications s' = (notifications s ++ [n])%list /\
                  Notification.user_id n = Some user /\
                  Notification.message n
                  = "Weighing completed for listing #" ++ listing_id /\
                  Notification.payload n = DWeighing listing_id cumulative) /\
       ((cumulative < quantity_or_0 listing)%Z ->
        notifications s' = notifications s)).
Proof.
  unfold add_weight_entry. plumbing. repeat split.
  - intros ->. reflexivity.
  - intros listing Hl Hown. rewrite Hl. cbv beta iota.
    now rewrite (eqb_false_of_neq _ _ Hown).
  - intros listing Hl <- Hawait Hsold. rewrite Hl. cbv beta iota.
    rewrite String.eqb_refl, (eqb_false_of_neq _ _ Hawait),
      (eqb_false_of_neq _ _ Hsold). reflexivity.
  - intros listing Hl <- Hst. rewrite Hl. cbv beta iota.
    rewrite String.eqb_refl. cbn [negb].
    assert (Hres : (Listing.status listing =? "SOLD")
                   || (Listing.status listing =? "AWAITING_PAYMENT") = true).
    { destruct Hst as [-> | ->]; reflexivity. }
    rewrite Hres. cbn [negb].
    set (ts := if truthy (WeightEntry.timestamp weight) then _ else _).
    set (cumulative := (_ + WeightEntry.quantity weight)%Z).
    assert (Hts : exists stamp s1,
               ts s = Return stamp s1 /\ users s1 = users s /\
               farmers s1 = farmers s /\ proposals s1 = proposals s /\
               notifications s1 = notifications s /\ weights s1 = weights s /\
               transactions s1 = transactions s /\
               (WeightEntry.timestamp weight = None ->
                stamp = isoformat_at env (draws s)) /\
               (forall t, WeightEntry.timestamp weight = Some t -> t <> "" ->
                          stamp = t)).
    { subst ts. destruct (WeightEntry.timestamp weight) as [[|c t]|]; cbn [truthy].
      - eexists; eexists; split; [reflexivity|]. cbn. repeat split; try discriminate.
        intros t [= <-] Ht. now elim Ht.
      - eexists; eexists; split; [reflexivity|]. cbn.
        repeat split; try discriminate. now intros t' [= <-] _.
      - eexists; eexists; split; [reflexivity|]. cbn. repeat split; discriminate. }
    destruct Hts as (stamp & s1 & -> & Hu & Hf & Hp & Hn & Hw & Ht & Hnone & Hsome).
    rewrite filter_snoc. cbn [Weight.listing_id]. rewrite String.eqb_refl.
    rewrite map_app. cbn [map Weight.quantity]. rewrite sum_int_snoc.
    fold cumulative.
    destruct (quantity_or_0 listing <=? cumulative)%Z eqn:Hcmp.
    + eexists.
      exists (Weight.mk (WeightEntry.batch_number weight) (WeightEntry.quantity weight)
                (WeightEntry.total_weight weight) stamp listing_id).
      cbn zeta. split; [reflexivity|].
      cbn [users farmers proposals notifications weights transactions draws
           Weight.listing_id Weight.batch_number Weight.quantity
           Weight.total_weight Weight.timestamp].
      repeat split; auto.
      * intros _. eexists. rewrite Hn. repeat split.
      * intros Hlt. apply Z.leb_le in Hcmp. lia.
    + eexists.
      exists (Weight.mk (WeightEntry.batch_number weight) (WeightEntry.quantity weight)
                (WeightEntry.total_weight weight) stamp listing_id).
      cbn zeta. split; [reflexivity|].
      cbn [users farmers proposals notifications weights transactions draws
           Weight.listing_id Weight.batch_number Weight.quantity
           Weight.total_weight Weight.timestamp].
      repeat split; auto.
      apply Z.leb_gt in Hcmp. intros Hle. lia.
Qed.

(* ------------------------------------------------------------------ *)
(** *** Finalizing *)



(** A fee sent as [null] together with recorded weights makes finalize
    raise before anything is written. *)
Lemma finalize_null_fee_raises
    (s : Store) (listing_id : string) (payment : FinalPayment.t)
    (listing : Listing.t) (proposal : Proposal.t) (w : Weight.t) (lw : list Weight.t) :
  find (fun f => Listing.id f =? listing_id) (farmers s) = Some listing ->
  find (fun p => (Proposal.supply_id p =? listing_id)
                 && (Proposal.status p =? "PAID")) (proposals s)
  = Some proposal ->
  filter (fun w => Weight.listing_id w =? listing_id) (weights s) = w :: lw ->
  FinalPayment.transport_fee payment = None ->
  exists s',
    finalize_transaction env listing_id payment (Listing.owner_id listing) s
    = Raise TypeError s' /\
    farmers s' = farmers s /\ proposals s' = proposals s /\
    transactions s' = transactions s /\ notifications s' = notifications s /\
    weights s' = weights s.
Proof.
  intros Hl Hp Hw Hfee. unfold finalize_transaction. plumbing_on s.
  rewrite Hl. cbv beta iota. rewrite String.eqb_refl. cbn [negb].
  rewrite Hp. cbv beta iota zeta. rewrite Hw. unfold minus_fees.
  rewrite Hfee. plumbing. eexists. split; [reflexivity|]. cbn. repeat split.
Qed.

(* ------------------------------------------------------------------ *)
(** *** Yield rate *)

(** C8: a finalize request whose yield rate is not within [0.48, 0.55] is
    rejected by validation, whatever else it holds, and the files stay as
    they were; the slaughterhouse submission takes any yield rate at all:
    for an existing transaction it succeeds, stores the rate as given and
    computes the amount with it. *)
Theorem C8_yield_rate_checked_only_by_finalize :
  (forall (s : Store) (listing_id user : string) (body : FinalPaymentBody.t)
          (y : float),
     FinalPaymentBody.yield_rate body = Some y ->
     ((0.48 <=? y) && (y <=? 0.55))%float = false ->
     finalize_endpoint env listing_id body user s
     = Raise RequestValidationError s) /\
  (forall (s : Store) (transaction_id user : string)
          (final_weight yield_rate price_per_unit : float) (t : Transaction.t),
     find (fun t => Transaction.id t =? transaction_id) (transactions s) = Some t ->
     exists s' t',
       submit_slaughterhouse_weight env transaction_id final_weight yield_rate
         price_per_unit user s
       = Return ("Final weight submitted",
                 mkCalculation final_weight (round2 (final_weight / 15)%float)
                   (round2 (final_weight / 15 * yield_rate * price_per_unit)%float))
                s' /\
       find (fun t => Transaction.id t =? transaction_id) (transactions s')
       = Some t' /\
       Transaction.yield_rate t' = Some yield_rate /\
       Transaction.final_amount t'
       = Some (round2 (final_weight / 15 * yield_rate * price_per_unit)%float) /\
       Transaction.status t' = Some "completed").
Proof.
  split.
  - intros s listing_id user body y Hy Hout.
    unfold finalize_endpoint, parse_FinalPayment, yield_rate_in_range.
    now rewrite Hy, Hout.
  - intros s transaction_id user final_weight yield_rate price_per_unit t Ht.
    unfold submit_slaughterhouse_weight. plumbing_on s.
    rewrite Ht. cbv beta iota zeta.
    destruct (find _ farmers0) as [listing|]; cbv beta iota.
    + eexists. eexists. split; [reflexivity|]. cbn [transactions].
      rewrite find_update_first by (intros x Hx; exact Hx). rewrite Ht.
      cbn. repeat split.
    + eexists. eexists. split; [reflexivity|]. cbn [transactions].
      rewrite find_update_first by (intros x Hx; exact Hx). rewrite Ht.
      cbn. repeat split.
Qed.

(* ------------------------------------------------------------------ *)
(** *** The tests the handlers do not make *)

(** Accepting looks at neither the proposal's nor the listing's status: the
    listing ends in AWAITING_PAYMENT whatever it was. *)
Lemma accept_ignores_listing_status
    (s : Store) (pid user : string) (prop : Proposal.t) (supply : Listing.t) :
  find (fun p => Proposal.id p =? pid) (proposals s) = Some prop ->
  find (fun f => Listing.id f =? Proposal.supply_id prop) (farmers s)
  = Some supply ->
  listing_status (Proposal.supply_id prop)
    (store_of (handle_proposal env pid "accept" user s))
  = Some "AWAITING_PAYMENT".
Proof.
  intros Hp Hl. unfold handle_proposal, listing_status. plumbing_on s.
  rewrite Hp. cbv beta iota zeta. cbn [String.eqb Ascii.eqb Bool.eqb].
  cbn [Proposal.set_status Proposal.supply_id Proposal.buyer_id].
  rewrite Hl. cbv beta iota.
  rewrite find_update_first by (intros x Hx; exact Hx). now rewrite Hl.
Qed.

(** Paying looks at neither status either: the proposal ends PAID and the
    listing SOLD whatever they were. *)
Lemma pay_fee_ignores_status
    (s : Store) (pid : string) (prop : Proposal.t) (supply : Listing.t) :
  find (fun p => Proposal.id p =? pid) (proposals s) = Some prop ->
  find (fun f => Listing.id f =? Proposal.supply_id prop) (farmers s)
  = Some supply ->
  listing_status (Proposal.supply_id prop)
    (store_of (pay_fee env pid (Proposal.buyer_id prop) s)) = Some "SOLD" /\
  proposal_status pid
    (store_of (pay_fee env pid (Proposal.buyer_id prop) s)) = Some "PAID".
Proof.
  intros Hp Hl.
  destruct (pay_fee_pays s pid prop supply Hp Hl) as (s' & n & -> & Hl' & Hp' & _).
  unfold listing_status, proposal_status, store_of.
  now rewrite Hl', Hp'.
Qed.

(* ------------------------------------------------------------------ *)
(** *** What a request can do to the proposals *)

(** Splits on every test a handler makes, innermost first, once its
    plumbing is unfolded. *)
Ltac split_on x :=
  match x with
  | context [match ?y with _ => _ end] => split_on y
  | _ => destruct x eqn:?
  end.

Ltac each_branch :=
  repeat (cbv beta iota zeta;
          match goal with
          | |- context [match ?x with _ => _ end] => split_on x
          end);
  cbv beta iota zeta.

Lemma update_first_In_find {A : Type} (p : A -> bool) (f : A -> A)
    (l : list A) (y : A) :
  In y (update_first p f l) ->
  In y l \/ exists x, find p l = Some x /\ y = f x.
Proof.
  induction l as [|x r IH]; cbn; [tauto|].
  destruct (p x) eqn:Hx; cbn.
  - intros [<-|Hy]; [right; exists x; auto | left; auto].
  - intros [<-|Hy]; [left; auto|].
    destruct (IH Hy) as [H|(z & Hz & ->)]; [left; auto|].
    right; exists z; auto.
Qed.

(** Only the three proposal handlers write [proposals.json]. *)
Lemma proposals_untouched (c : call) (s : Store) :
  match c with
  | CreateProposal _ _ | HandleProposal _ _ _ | PayFee _ _ => True
  | _ => proposals (serve env c s) = proposals s
  end.
Proof.
  destruct c; try exact I;
    unfold serve, add_weight_entry, get_weights, record_internal_weight,
      request_advance_payment, finalize_endpoint, finalize_transaction,
      submit_slaughterhouse_weight, get_transaction, minus_fees;
    plumbing_on s; each_branch; reflexivity.
Qed.

Lemma create_proposal_proposals (prop : ProposalIn.t) (user : string) (s : Store) :
  proposals (store_of (create_proposal env prop user s)) = proposals s \/
  exists new_prop,
    proposals (store_of (create_proposal env prop user s))
    = (proposals s ++ [new_prop])%list /\
    Proposal.status new_prop = "PENDING".
Proof.
  unfold create_proposal. plumbing_on s. each_branch; auto.
  right. eexists. split; reflexivity.
Qed.

Lemma handle_proposal_proposals (pid action user : string) (s : Store) :
  proposals (store_of (handle_proposal env pid action user s)) = proposals s \/
  exists st,
    proposals (store_of (handle_proposal env pid action user s))
    = update_first (fun p => Proposal.id p =? pid) (Proposal.set_status st)
                   (proposals s) /\
    (st = "REJECTED" \/ st = "ACCEPTED").
Proof.
  unfold handle_proposal. plumbing_on s. each_branch; auto;
    right; eexists; (split; [reflexivity|]); auto.
Qed.

Lemma pay_fee_proposals (pid user : string) (s : Store) :
  proposals (store_of (pay_fee env pid user s)) = proposals s \/
  exists prop,
    find (fun p => Proposal.id p =? pid) (proposals s) = Some prop /\
    Proposal.buyer_id prop = user /\
    proposals (store_of (pay_fee env pid user s))
    = update_first (fun p => Proposal.id p =? pid) (Proposal.set_status "PAID")
                   (proposals s).
Proof.
  unfold pay_fee. plumbing_on s. each_branch; auto.
  right. eexists. repeat split.
  match goal with
  | H : negb (_ =? _) = false |- _ =>
      apply negb_false_iff, String.eqb_eq in H; exact H
  end.
Qed.

(** The part of C3 that the handlers do keep: whatever the request, a
    proposal that is PAID after it either was in the file as it is before
    it, or is the proposal the request paid for, and then the request is a
    pay-reservation call made by that proposal's own buyer. *)
Lemma paid_only_by_own_buyer (c : call) (s : Store) (p' : Proposal.t) :
  In p' (proposals (serve env c s)) ->
  Proposal.status p' = "PAID" ->
  In p' (proposals s) \/
  exists p, In p (proposals s) /\
            p' = Proposal.set_status "PAID" p /\
            c = PayFee (Proposal.id p) (Proposal.buyer_id p).
Proof.
  intros Hin Hpaid.
  pose proof (proposals_untouched c s) as Hframe.
  destruct c; try (rewrite Hframe in Hin; now left); clear Hframe;
    cbn [serve] in Hin.
  - destruct (create_proposal_proposals prop user s) as [E|(n & E & Hn)];
      rewrite E in Hin; [now left|].
    apply in_app_or in Hin. destruct Hin as [Hin|[<-|[]]]; [now left|].
    congruence.
  - destruct (handle_proposal_proposals pid action user s) as [E|(st & E & Hst)];
      rewrite E in Hin; [now left|].
    apply update_first_In_find in Hin.
    destruct Hin as [Hin|(x & _ & ->)]; [now left|].
    cbn in Hpaid. destruct Hst; congruence.
  - destruct (pay_fee_proposals pid user s) as [E|(prop & Hf & Hb & E)];
      rewrite E in Hin; [now left|].
    apply update_first_In_find in Hin.
    destruct Hin as [Hin|(x & Hx & ->)]; [now left|].
    right. exists x. rewrite Hf in Hx. injection Hx as <-.
    destruct (find_some _ _ Hf) as [Hmem Hid].
    apply String.eqb_eq in Hid. subst pid user. auto.
Qed.

End Properties.

(* ================================================================== *)
(** ** What no request does *)

Lemma map_update_first {A B : Type} (g : A -> B) (p : A -> bool) (f : A -> A)
    (l : list A) :
  (forall x, g (f x) = g x) -> map g (update_first p f l) = map g l.
Proof.
  intros Hg. induction l as [|x r IH]; cbn; [reflexivity|].
  destruct (p x); cbn; [now rewrite Hg | now rewrite IH].
Qed.

(** What of a listing no handler writes. *)
Definition listing_identity (f : Listing.t)
    : string * string * string * option Z * option string * option string :=
  (Listing.id f, Listing.owner_id f, Listing.race f, Listing.quantity f,
   Listing.nfe_file f, Listing.gta_file f).

(** What of a proposal no handler writes once it is made. *)
Definition proposal_terms (p : Proposal.t)
    : string * string * string * string * float * option string * float :=
  (Proposal.id p, Proposal.supply_id p, Proposal.buyer_id p,
   Proposal.buyer_contact p, Proposal.price_offer p, Proposal.message p,
   Proposal.timestamp p).

(** What of a transaction no handler writes once it is made. *)
Definition transaction_terms (t : Transaction.t)
    : string * string * string * string * string * option float * option float
      * float * option float * option float :=
  (Transaction.id t, Transaction.listing_id t, Transaction.proposal_id t,
   Transaction.nfe_document t, Transaction.gta_document t,
   Transaction.transport_fee t, Transaction.funrural_tax t,
   Transaction.timestamp t, Transaction.total_weight t,
   Transaction.gross_amount t).

(** Splits on the tests of an unfolded handler, innermost first. *)
Ltac innermost_test x :=
  match x with
  | context [match ?y with _ => _ end] => innermost_test y
  | _ => destruct x eqn:?
  end.

Ltac every_branch :=
  repeat (cbv beta iota zeta;
          match goal with
          | |- context [match ?x with _ => _ end] => innermost_test x
          end);
  cbv beta iota zeta.

Section Invariants.

Variable env : Env.

(** Unfolds whichever handler serves the request and splits on its tests. *)
Ltac every_run c s :=
  destruct c;
  unfold serve, create_proposal, handle_proposal, pay_fee, add_weight_entry,
    get_weights, record_internal_weight, request_advance_payment,
    finalize_endpoint, finalize_transaction, submit_slaughterhouse_weight,
    get_transaction, minus_fees;
  plumbing_on s; every_branch.

(** X1: the inbox is append-only.  Whatever the request, every
    notification stored before it is still there, unchanged and in place;
    at most two are added, and each of them is unread. *)
Theorem notifications_append_only (c : call) (s : Store) :
  exists added,
    notifications (serve env c s) = (notifications s ++ added)%list /\
    Forall (fun n => Notification.read n = false) added /\
    (List.length added <= 2)%nat.
Proof.
  every_run c s;
    first [ exists []; rewrite app_nil_r; repeat split; [constructor | cbn; lia]
          | eexists [_]; repeat split;
            [repeat constructor | cbn; lia]
          | rewrite <- app_assoc; eexists [_; _]; repeat split;
            [repeat constructor | cbn; lia] ].
Qed.

(** X2: no request creates or removes a listing, or changes a listing's
    id, owner, breed, declared quantity or document placeholders; and none
    writes the users. *)
Theorem listings_keep_their_identity (c : call) (s : Store) :
  map listing_identity (farmers (serve env c s)) = map listing_identity (farmers s) /\
  users (serve env c s) = users s.
Proof.
  every_run c s; split; try reflexivity;
    apply map_update_first; intros x; reflexivity.
Qed.

(** X4: the weighings are append-only: no request changes or removes a
    recorded entry, and a request adds at most one. *)
Theorem weights_append_only (c : call) (s : Store) :
  exists added,
    weights (serve env c s) = (weights s ++ added)%list /\
    (List.length added <= 1)%nat.
Proof.
  every_run c s;
    first [ exists []; rewrite app_nil_r; split; [reflexivity | cbn; lia]
          | eexists [_]; split; [reflexivity | cbn; lia] ].
Qed.

(** X3: an offer, once made, keeps its terms.  Whatever the request, the
    proposals stored before it keep their id, listing, buyer, contact
    snapshot, offered price, message and creation time, in place; only
    their status can change, and at most one proposal is added. *)
Theorem proposals_keep_their_terms (c : call) (s : Store) :
  exists added,
    map proposal_terms (proposals (serve env c s))
    = (map proposal_terms (proposals s) ++ added)%list /\
    (List.length added <= 1)%nat.
Proof.
  every_run c s;
    first [ exists []; rewrite app_nil_r; split; [|cbn; lia];
            first [ reflexivity
                  | apply map_update_first; intros x; reflexivity ]
          | eexists [_]; split; [|cbn; lia];
            rewrite map_app; reflexivity ].
Qed.

(** X5: a transaction, once made, keeps its id, its listing and proposal,
    its documents and fees, its creation time, and the total weight and
    gross amount it was given at finalization; at most one transaction is
    added by a request. *)
Theorem transactions_keep_their_terms (c : call) (s : Store) :
  exists added,
    map transaction_terms (transactions (serve env c s))
    = (map transaction_terms (transactions s) ++ added)%list /\
    (List.length added <= 1)%nat.
Proof.
  every_run c s;
    first [ exists []; rewrite app_nil_r; split; [|cbn; lia];
            first [ reflexivity
                  | apply map_update_first; intros x; reflexivity ]
          | eexists [_]; split; [|cbn; lia];
            rewrite map_app; reflexivity ].
Qed.

(** X6: the status vocabulary is closed.  If every listing's status is one
    of OPEN, AWAITING_PAYMENT, SOLD, COMPLETED before a request, the same
    holds after it. *)
Theorem listing_statuses_stay_in_lifecycle (c : call) (s : Store) :
  Forall (fun f => listing_rank (Listing.status f) <> None) (farmers s) ->
  Forall (fun f => listing_rank (Listing.status f) <> None)
         (farmers (serve env c s)).
Proof.
  intros Hall.
  assert (Hupd : forall (p : Listing.t -> bool) (g : Listing.t -> Listing.t) l,
             (forall x, listing_rank (Listing.status x) <> None ->
                        listing_rank (Listing.status (g x)) <> None) ->
             Forall (fun f => listing_rank (Listing.status f) <> None) l ->
             Forall (fun f => listing_rank (Listing.status f) <> None)
                    (update_first p g l)).
  { intros p g l Hg. induction 1 as [|x r Hx Hr IH]; cbn; [constructor|].
    destruct (p x); constructor; auto. }
  revert Hall. every_run c s; intros Hall; try exact Hall;
    apply Hupd; try exact Hall; intros x Hx; cbn; first [exact Hx | discriminate].
Qed.

(* ------------------------------------------------------------------ *)
(** *** Accepting and rejecting *)

(** X7: accepting an existing proposal succeeds for every caller and
    whatever the statuses were.  When the proposal's listing exists, the
    proposal becomes ACCEPTED, the listing becomes AWAITING_PAYMENT with the
    proposal's buyer recorded on it, and one notification goes to that
    buyer; when the listing is gone, the proposal still becomes ACCEPTED,
    and nobody is notified. *)
Theorem accept_outcome (s : Store) (pid user : string) (prop : Proposal.t) :
  find (fun p => Proposal.id p =? pid) (proposals s) = Some prop ->
  (forall supply,
     find (fun f => Listing.id f =? Proposal.supply_id prop) (farmers s)
     = Some supply ->
     exists s' n,
       handle_proposal env pid "accept" user s = Return "Updated" s' /\
       find (fun p => Proposal.id p =? pid) (proposals s')
       = Some (Proposal.set_status "ACCEPTED" prop) /\
       find (fun f => Listing.id f =? Proposal.supply_id prop) (farmers s')
       = Some (Listing.set_buyer_id (Proposal.buyer_id prop)
                 (Listing.set_status "AWAITING_PAYMENT" supply)) /\
       notifications s' = (notifications s ++ [n])%list /\
       Notification.user_id n = Some (Proposal.buyer_id prop) /\
       Notification.payload n = DProposal (Proposal.set_status "ACCEPTED" prop) /\
       weights s' = weights s /\ transactions s' = transactions s) /\
  (find (fun f => Listing.id f =? Proposal.supply_id prop) (farmers s) = None ->
   exists s',
     handle_proposal env pid "accept" user s = Return "Updated" s' /\
     find (fun p => Proposal.id p =? pid) (proposals s')
     = Some (Proposal.set_status "ACCEPTED" prop) /\
     farmers s' = farmers s /\ notifications s' = notifications s).
Proof.
  intros Hp. unfold handle_proposal. plumbing_on s.
  rewrite Hp. cbv beta iota zeta. cbn [String.eqb Ascii.eqb Bool.eqb].
  cbn [Proposal.set_status Proposal.supply_id Proposal.buyer_id]. split.
  - intros supply Hl. rewrite Hl. cbv beta iota.
    eexists. eexists. split; [reflexivity|].
    cbn [users farmers proposals notifications weights transactions draws].
    repeat split.
    + rewrite find_update_first by (intros x Hx; exact Hx). now rewrite Hp.
    + rewrite find_update_first by (intros x Hx; exact Hx). now rewrite Hl.
  - intros Hl. rewrite Hl. cbv beta iota.
    eexists. split; [reflexivity|].
    cbn [users farmers proposals notifications weights transactions draws].
    repeat split.
    rewrite find_update_first by (intros x Hx; exact Hx). now rewrite Hp.
Qed.

(** X8: responding to a proposal that does not exist fails with NotFound
    whatever the action, the files untouched; rejecting an existing one
    sets it to REJECTED for every caller and whatever its status was, and
    touches neither the listings nor the inbox: the buyer is not told. *)
Theorem reject_outcome (s : Store) (pid user : string) :
  (find (fun p => Proposal.id p =? pid) (proposals s) = None ->
   forall action,
     handle_proposal env pid action user s
     = Raise (HTTPException NotFound (Some "Not found")) s) /\
  (forall prop,
     find (fun p => Proposal.id p =? pid) (proposals s) = Some prop ->
     exists s',
       handle_proposal env pid "reject" user s = Return "Updated" s' /\
       find (fun p => Proposal.id p =? pid) (proposals s')
       = Some (Proposal.set_status "REJECTED" prop) /\
       farmers s' = farmers s /\ notifications s' = notifications s /\
       weights s' = weights s /\ transactions s' = transactions s).
Proof.
  unfold handle_proposal. split.
  - intros Hp action. plumbing. now rewrite Hp.
  - intros prop Hp. plumbing_on s. rewrite Hp. cbv beta iota zeta.
    cbn [String.eqb Ascii.eqb Bool.eqb].
    eexists. split; [reflexivity|].
    cbn [users farmers proposals notifications weights transactions draws].
    repeat split.
    rewrite find_update_first by (intros x Hx; exact Hx). now rewrite Hp.
Qed.

(* ------------------------------------------------------------------ *)
(** *** The advisory annotations *)

(** X9: recording an internal weight fails with Forbidden, the files
    untouched, when the listing is unknown or is not the caller's;
    otherwise it stores the estimate and the time on the listing and
    changes nothing else: no listing's status, no other file (users
    included). *)
Theorem record_internal_weight_outcome
    (s : Store) (listing_id user : string) (w : float) :
  (find (fun f => Listing.id f =? listing_id) (farmers s) = None ->
   record_internal_weight env listing_id w user s
   = Raise (HTTPException Forbidden (Some "Not authorized")) s) /\
  (forall listing,
     find (fun f => Listing.id f =? listing_id) (farmers s) = Some listing ->
     Listing.owner_id listing <> user ->
     record_internal_weight env listing_id w user s
     = Raise (HTTPException Forbidden (Some "Not authorized")) s) /\
  (forall listing,
     find (fun f => Listing.id f =? listing_id) (farmers s) = Some listing ->
     Listing.owner_id listing = user ->
     exists s',
       record_internal_weight env listing_id w user s
       = Return "Internal weight recorded (for reference only)" s' /\
       find (fun f => Listing.id f =? listing_id) (farmers s')
       = Some (Listing.set_internal_weight w (time_at env (draws s)) listing) /\
       map Listing.status (farmers s') = map Listing.status (farmers s) /\
       proposals s' = proposals s /\ notifications s' = notifications s /\
       weights s' = weights s /\ transactions s' = transactions s /\
       users s' = users s).
Proof.
  unfold record_internal_weight. repeat split.
  - intros Hl. plumbing. now rewrite Hl.
  - intros listing Hl Hown. plumbing. rewrite Hl. cbv beta iota.
    now rewrite (eqb_false_of_neq _ _ Hown).
  - intros listing Hl <-. plumbing_on s. rewrite Hl. cbv beta iota.
    rewrite String.eqb_refl. cbn [negb].
    eexists. split; [reflexivity|].
    cbn [users farmers proposals notifications weights transactions draws].
    repeat split.
    + rewrite find_update_first by (intros x Hx; exact Hx). now rewrite Hl.
    + apply map_update_first. intros x. reflexivity.
Qed.

(** X10: requesting an advance fails with Forbidden, the files untouched,
    when the listing is unknown or is not the caller's; otherwise it stores
    the requested value with status pending on the listing, changes no
    listing's status, and notifies the listing's buyer when there is one,
    and nobody when there is none. *)
Theorem request_advance_payment_outcome
    (s : Store) (listing_id user : string) (v : float) :
  (find (fun f => Listing.id f =? listing_id) (farmers s) = None ->
   request_advance_payment env listing_id v user s
   = Raise (HTTPException Forbidden (Some "Not authorized")) s) /\
  (forall listing,
     find (fun f => Listing.id f =? listing_id) (farmers s) = Some listing ->
     Listing.owner_id listing <> user ->
     request_advance_payment env listing_id v user s
     = Raise (HTTPException Forbidden (Some "Not authorized")) s) /\
  (forall listing,
     find (fun f => Listing.id f =? listing_id) (farmers s) = Some listing ->
     Listing.owner_id listing = user ->
     exists s',
       request_advance_payment env listing_id v user s
       = Return "Advance payment requested" s' /\
       find (fun f => Listing.id f =? listing_id) (farmers s')
       = Some (Listing.set_advance v "pending" listing) /\
       map Listing.status (farmers s') = map Listing.status (farmers s) /\
       proposals s' = proposals s /\
       weights s' = weights s /\ transactions s' = transactions s /\
       (Listing.buyer_id listing = None -> notifications s' = notifications s) /\
       (forall b, Listing.buyer_id listing = Some b -> b <> "" ->
          exists n, notifications s' = (notifications s ++ [n])%list /\
                    Notification.user_id n = Some b /\
                    Notification.payload n = DAdvance listing_id v)).
Proof.
  unfold request_advance_payment. repeat split.
  - intros Hl. plumbing. now rewrite Hl.
  - intros listing Hl Hown. plumbing. rewrite Hl. cbv beta iota.
    now rewrite (eqb_false_of_neq _ _ Hown).
  - intros listing Hl <-. plumbing_on s. rewrite Hl. cbv beta iota.
    rewrite String.eqb_refl. cbn [negb].
    destruct (Listing.buyer_id listing) as [[|ch b]|] eqn:Hb; cbn [truthy];
      cbv beta iota; (eexists; split; [reflexivity|]);
      cbn [users farmers proposals notifications weights transactions draws];
      (repeat split;
       [ rewrite find_update_first by (intros x Hx; exact Hx); now rewrite Hl
       | apply map_update_first; intros x; reflexivity
       | .. ]); try discriminate.
    + intros b [= <-] Hne. now elim Hne.
    + intros b' [= <-] _. eexists. repeat split.
Qed.

(* ------------------------------------------------------------------ *)
(** *** Finalizing, and reading the transaction back *)

Lemma find_snoc_fresh {A : Type} (p : A -> bool) (l : list A) (x : A) :
  find p l = None -> p x = true -> find p (l ++ [x]) = Some x.
Proof.
  induction l as [|y r IH]; cbn; intros Hn Hx; [now rewrite Hx|].
  destruct (p y); [discriminate|auto].
Qed.


Lemma find_of_member {A : Type} (p : A -> bool) (l : list A) (x : A) :
  In x l -> p x = true -> exists y, find p l = Some y.
Proof.
  induction l as [|z r IH]; cbn; [tauto|].
  intros [->|Hin] Hx.
  - rewrite Hx. eauto.
  - destruct (p z); eauto.
Qed.

(** The successful run of [finalize_transaction], shared by the statements
    below: the caller owns the listing, a PAID proposal exists, and either
    nothing was weighed or both fees are numbers. *)
Lemma finalize_runs
    (s : Store) (listing_id : string) (payment : FinalPayment.t)
    (listing : Listing.t) (proposal : Proposal.t) :
  find (fun f => Listing.id f =? listing_id) (farmers s) = Some listing ->
  find (fun p => (Proposal.supply_id p =? listing_id)
                 && (Proposal.status p =? "PAID")) (proposals s)
  = Some proposal ->
  filter (fun w => Weight.listing_id w =? listing_id) (weights s) = [] \/
  (FinalPayment.transport_fee payment <> None /\
   FinalPayment.funrural_tax payment <> None) ->
  exists s' t n1 n2,
    finalize_transaction env listing_id payment (Listing.owner_id listing) s
    = Return ("Transaction finalized", t) s' /\
    Transaction.id t = uuid_at env (draws s) /\
    Transaction.listing_id t = listing_id /\
    Transaction.proposal_id t = Proposal.id proposal /\
    transactions s' = (transactions s ++ [t])%list /\
    farmers s'
    = update_first (fun f => Listing.id f =? listing_id)
        (fun f => Listing.set_transaction_id (Transaction.id t)
                    (Listing.set_status "COMPLETED" f)) (farmers s) /\
    proposals s' = proposals s /\ weights s' = weights s /\
    users s' = users s /\
    notifications s' = (notifications s ++ [n1; n2])%list /\
    Notification.user_id n1 = Listing.buyer_id listing /\
    Notification.payload n1 = DTransaction t /\
    Notification.user_id n2 = Listing.buyer_id listing /\
    Notification.payload n2 = DTransactionRef (Transaction.id t).
Proof.
  intros Hl Hp Hw. unfold finalize_transaction. plumbing_on s.
  rewrite Hl. cbv beta iota. rewrite String.eqb_refl. cbn [negb].
  rewrite Hp. cbv beta iota zeta.
  destruct (filter _ weights0) as [|w lw] eqn:Hlw.
  - do 4 eexists. split; [reflexivity|].
    cbn [users farmers proposals notifications weights transactions draws].
    rewrite <- app_assoc. repeat split.
  - destruct Hw as [Hw|[Hfee Htax]]; [discriminate Hw|].
    unfold minus_fees.
    destruct (FinalPayment.transport_fee payment); [|now elim Hfee].
    destruct (FinalPayment.funrural_tax payment); [|now elim Htax].
    plumbing.
    do 4 eexists. split; [reflexivity|].
    cbn [users farmers proposals notifications weights transactions draws].
    rewrite <- app_assoc. repeat split.
Qed.

(** X13: finalize fails with Forbidden, the files untouched, when the
    listing is unknown or is not the caller's, whatever the proposals are;
    a finalize that succeeds writes exactly two notifications, both
    addressed to whatever buyer the listing records (to nobody when it
    records none), the first carrying the transaction and the second its
    id, and leaves the proposals and the weighings as they were. *)
Theorem finalize_forbidden_and_notices
    (s : Store) (listing_id user : string) (payment : FinalPayment.t) :
  (find (fun f => Listing.id f =? listing_id) (farmers s) = None ->
   finalize_transaction env listing_id payment user s
   = Raise (HTTPException Forbidden (Some "Not authorized")) s) /\
  (forall listing,
     find (fun f => Listing.id f =? listing_id) (farmers s) = Some listing ->
     Listing.owner_id listing <> user ->
     finalize_transaction env listing_id payment user s
     = Raise (HTTPException Forbidden (Some "Not authorized")) s) /\
  (forall listing proposal,
     find (fun f => Listing.id f =? listing_id) (farmers s) = Some listing ->
     Listing.owner_id listing = user ->
     find (fun p => (Proposal.supply_id p =? listing_id)
                    && (Proposal.status p =? "PAID")) (proposals s)
     = Some proposal ->
     filter (fun w => Weight.listing_id w =? listing_id) (weights s) = [] \/
     (FinalPayment.transport_fee payment <> None /\
      FinalPayment.funrural_tax payment <> None) ->
     exists s' t n1 n2,
       finalize_transaction env listing_id payment user s
       = Return ("Transaction finalized", t) s' /\
       notifications s' = (notifications s ++ [n1; n2])%list /\
       Notification.user_id n1 = Listing.buyer_id listing /\
       Notification.payload n1 = DTransaction t /\
       Notification.user_id n2 = Listing.buyer_id listing /\
       Notification.payload n2 = DTransactionRef (Transaction.id t) /\
       proposals s' = proposals s /\ weights s' = weights s).
Proof.
  repeat split.
  - intros Hl. unfold finalize_transaction. plumbing_on s. now rewrite Hl.
  - intros listing Hl Hown. unfold finalize_transaction. plumbing_on s.
    rewrite Hl. cbv beta iota. now rewrite (eqb_false_of_neq _ _ Hown).
  - intros listing proposal Hl <- Hp Hw.
    destruct (finalize_runs s listing_id payment listing proposal Hl Hp Hw)
      as (s' & t & n1 & n2 & Hrun & _ & _ & _ & _ & _ & Hps & Hws & _
          & Hn & H1 & H2 & H3 & H4).
    exists s', t, n1, n2. repeat split; assumption.
Qed.


(* ------------------------------------------------------------------ *)
(** *** Weighing, and reading the weights back *)

(** What a weighing that returns has written and answered. *)
Lemma add_weight_entry_returns
    (s : Store) (listing_id user : string) (weight : WeightEntry.t) :
  forall (r : WeightAdded) (s' : Store),
    add_weight_entry env listing_id weight user s = Return r s' ->
    exists entry,
      weights s' = (weights s ++ [entry])%list /\
      Weight.listing_id entry = listing_id /\
      Weight.quantity entry = WeightEntry.quantity weight /\
      Weight.total_weight entry = WeightEntry.total_weight weight /\
      total_weighed r
      = sum_int (map Weight.quantity
                   (filter (fun w => Weight.listing_id w =? listing_id)
                           (weights s ++ [entry]))).
Proof.
  unfold add_weight_entry. plumbing_on s. every_branch;
    intros r s' H; try discriminate H; injection H as <- <-;
    eexists; repeat split.
Qed.

(** X12: what a successful weighing answers is what a reader then sees:
    the listing's entries are the earlier ones followed by the new one,
    the batch count has grown by one, and the summary's total quantity is
    the [total_weighed] just answered, for any reader. *)
Theorem weights_read_back
    (s s' : Store) (listing_id user reader : string) (weight : WeightEntry.t)
    (r : WeightAdded) :
  add_weight_entry env listing_id weight user s = Return r s' ->
  exists entry rest,
    get_weights listing_id reader s'
    = Return ((filter (fun w => Weight.listing_id w =? listing_id) (weights s)
               ++ [entry])%list, rest) s' /\
    Weight.quantity entry = WeightEntry.quantity weight /\
    Weight.total_weight entry = WeightEntry.total_weight weight /\
    total_batches rest
    = S (List.length (filter (fun w => Weight.listing_id w =? listing_id)
                             (weights s))) /\
    total_quantity rest = total_weighed r.
Proof.
  intros H.
  destruct (add_weight_entry_returns s listing_id user weight r s' H)
    as (entry & Hw & Hid & Hq & Ht & Htot).
  unfold get_weights. plumbing. rewrite Hw.
  rewrite filter_snoc in Htot |- *. rewrite Hid, String.eqb_refl in Htot |- *.
  exists entry. eexists. split; [reflexivity|].
  cbn [total_batches total_quantity]. repeat split; auto.
  rewrite length_app. cbn. lia.
Qed.

(* ------------------------------------------------------------------ *)
(** *** The slaughterhouse submission *)

(** X14: a slaughterhouse submission for an unknown transaction fails with
    NotFound, the files untouched.  For a known one it succeeds for every
    caller; it overwrites units, yield rate, price and final amount with
    round2 (weight / 15), the rate and price given and round2 (weight / 15 *
    rate * price), sets the status to completed, stamps the completion
    time, and keeps the transaction's fees, total weight and gross amount:
    the fees stay on record but are not subtracted.  It
    changes no listing, and notifies the owner of the transaction's listing
    with the unrounded amount when that listing exists, and nobody when it
    does not. *)
Theorem slaughterhouse_outcome
    (s : Store) (transaction_id user : string) (w y p : float) :
  (find (fun t => Transaction.id t =? transaction_id) (transactions s) = None ->
   submit_slaughterhouse_weight env transaction_id w y p user s
   = Raise (HTTPException NotFound (Some "Transaction not found")) s) /\
  (forall t,
     find (fun t => Transaction.id t =? transaction_id) (transactions s) = Some t ->
     exists s' t',
       submit_slaughterhouse_weight env transaction_id w y p user s
       = Return ("Final weight submitted",
                 mkCalculation w (round2 (w / 15)%float)
                               (round2 (w / 15 * y * p)%float)) s' /\
       find (fun t => Transaction.id t =? transaction_id) (transactions s')
       = Some t' /\
       Transaction.at_quantity t' = Some (round2 (w / 15)%float) /\
       Transaction.yield_rate t' = Some y /\
       Transaction.price_per_unit t' = Some p /\
       Transaction.final_amount t' = Some (round2 (w / 15 * y * p)%float) /\
       Transaction.status t' = Some "completed" /\
       Transaction.slaughterhouse_weight t' = Some w /\
       Transaction.completed_at t' = Some (time_at env (draws s)) /\
       Transaction.transport_fee t' = Transaction.transport_fee t /\
       Transaction.funrural_tax t' = Transaction.funrural_tax t /\
       Transaction.gross_amount t' = Transaction.gross_amount t /\
       Transaction.total_weight t' = Transaction.total_weight t /\
       farmers s' = farmers s /\ proposals s' = proposals s /\
       weights s' = weights s /\
       (forall listing,
          find (fun f => Listing.id f =? Transaction.listing_id t) (farmers s)
          = Some listing ->
          exists n, notifications s' = (notifications s ++ [n])%list /\
                    Notification.user_id n = Some (Listing.owner_id listing) /\
                    Notification.payload n
                    = DFinalWeighing transaction_id (w / 15 * y * p)%float) /\
       (find (fun f => Listing.id f =? Transaction.listing_id t) (farmers s) = None ->
        notifications s' = notifications s)).
Proof.
  unfold submit_slaughterhouse_weight. split.
  - intros Hn. plumbing_on s. now rewrite Hn.
  - intros t Ht. plumbing_on s. rewrite Ht. cbv beta iota zeta.
    destruct (find _ farmers0) as [listing|] eqn:Hl; cbv beta iota;
      (do 2 eexists); (split; [reflexivity|]);
      cbn [users farmers proposals notifications weights transactions draws];
      rewrite find_update_first by (intros x Hx; exact Hx); rewrite Ht;
      (split; [reflexivity|]); cbn; repeat split; try discriminate.
    intros l' [= <-]. eexists. repeat split.
Qed.

(* ------------------------------------------------------------------ *)
(** *** The lifecycle, in order *)

Lemma create_proposal_runs
    (s : Store) (prop : ProposalIn.t) (user : string) (supply : Listing.t) :
  find (fun f => Listing.id f =? ProposalIn.supply_id prop) (farmers s)
  = Some supply ->
  Listing.status supply = "OPEN" ->
  is_farmer (find (fun u => User.username u =? user) (users s)) = false ->
  exists s1 new_prop,
    create_proposal env prop user s = Return ("Sent", uuid_at env (draws s)) s1 /\
    Proposal.id new_prop = uuid_at env (draws s) /\
    Proposal.supply_id new_prop = ProposalIn.supply_id prop /\
    Proposal.buyer_id new_prop = user /\
    Proposal.status new_prop = "PENDING" /\
    proposals s1 = (proposals s ++ [new_prop])%list /\
    farmers s1 = farmers s /\ weights s1 = weights s /\
    transactions s1 = transactions s.
Proof.
  intros Hl Hst Hu. unfold create_proposal. plumbing_on s.
  rewrite Hl. cbv beta iota. rewrite Hst, String.eqb_refl. cbn [negb].
  rewrite Hu. eexists.
  exists (Proposal.mk (uuid_at env draws0) (ProposalIn.supply_id prop) user
            (phone_of (find (fun u => User.username u =? user) users0))
            (ProposalIn.price_offer prop) (ProposalIn.message prop)
            "PENDING" (time_at env (S draws0))).
  split; [reflexivity|].
  cbn [users farmers proposals notifications weights transactions draws].
  repeat split.
Qed.

Lemma accept_runs
    (s : Store) (pid user : string) (prop : Proposal.t) (supply : Listing.t) :
  find (fun p => Proposal.id p =? pid) (proposals s) = Some prop ->
  find (fun f => Listing.id f =? Proposal.supply_id prop) (farmers s)
  = Some supply ->
  exists s2,
    handle_proposal env pid "accept" user s = Return "Updated" s2 /\
    proposals s2
    = update_first (fun p => Proposal.id p =? pid)
                   (Proposal.set_status "ACCEPTED") (proposals s) /\
    farmers s2
    = update_first (fun f => Listing.id f =? Proposal.supply_id prop)
        (fun f => Listing.set_buyer_id (Proposal.buyer_id prop)
                    (Listing.set_status "AWAITING_PAYMENT" f)) (farmers s) /\
    weights s2 = weights s /\ transactions s2 = transactions s.
Proof.
  intros Hp Hl. unfold handle_proposal. plumbing_on s.
  rewrite Hp. cbv beta iota zeta. cbn [String.eqb Ascii.eqb Bool.eqb].
  cbn [Proposal.set_status Proposal.supply_id Proposal.buyer_id].
  rewrite Hl. cbv beta iota. eexists. split; [reflexivity|].
  cbn [users farmers proposals notifications weights transactions draws].
  repeat split.
Qed.

Lemma pay_fee_runs
    (s : Store) (pid : string) (prop : Proposal.t) (supply : Listing.t) :
  find (fun p => Proposal.id p =? pid) (proposals s) = Some prop ->
  find (fun f => Listing.id f =? Proposal.supply_id prop) (farmers s)
  = Some supply ->
  exists s3,
    pay_fee env pid (Proposal.buyer_id prop) s
    = Return ("Paid", Listing.nfe_file supply, Listing.gta_file supply) s3 /\
    proposals s3
    = update_first (fun p => Proposal.id p =? pid)
                   (Proposal.set_status "PAID") (proposals s) /\
    farmers s3
    = update_first (fun f => Listing.id f =? Proposal.supply_id prop)
                   (Listing.set_status "SOLD") (farmers s) /\
    weights s3 = weights s /\ transactions s3 = transactions s.
Proof.
  intros Hp Hl. unfold pay_fee. plumbing_on s.
  rewrite Hp. cbv beta iota. rewrite String.eqb_refl. cbn [negb].
  rewrite Hl. eexists. split; [reflexivity|].
  cbn [users farmers proposals notifications weights transactions draws].
  repeat split.
Qed.

(** X15: the lifecycle in order works on any store.  Take an open listing,
    a submitter who is not a farmer, and a proposal id not yet in use.
    Then the offer, its acceptance (by any caller), the payment by the
    submitter and the finalization by the listing's owner (with a valid
    body whose fees are numbers) all succeed in turn, and take the listing
    through OPEN, AWAITING_PAYMENT, SOLD and COMPLETED and the proposal
    through PENDING, ACCEPTED and PAID, leaving exactly one more
    transaction. *)
Theorem lifecycle_in_order
    (s : Store) (prop : ProposalIn.t) (user anyone : string)
    (supply : Listing.t) (body : FinalPaymentBody.t) (payment : FinalPayment.t) :
  find (fun f => Listing.id f =? ProposalIn.supply_id prop) (farmers s)
  = Some supply ->
  Listing.status supply = "OPEN" ->
  is_farmer (find (fun u => User.username u =? user) (users s)) = false ->
  find (fun p => Proposal.id p =? uuid_at env (draws s)) (proposals s) = None ->
  parse_FinalPayment body = Some payment ->
  FinalPayment.transport_fee payment <> None ->
  FinalPayment.funrural_tax payment <> None ->
  let pid := uuid_at env (draws s) in
  let lid := ProposalIn.supply_id prop in
  let s1 := serve env (CreateProposal prop user) s in
  let s2 := serve env (HandleProposal pid "accept" anyone) s1 in
  let s3 := serve env (PayFee pid user) s2 in
  let s4 := serve env (Finalize lid body (Listing.owner_id supply)) s3 in
  (listing_status lid s1 = Some "OPEN" /\
   proposal_status pid s1 = Some "PENDING") /\
  (listing_status lid s2 = Some "AWAITING_PAYMENT" /\
   proposal_status pid s2 = Some "ACCEPTED") /\
  (listing_status lid s3 = Some "SOLD" /\
   proposal_status pid s3 = Some "PAID") /\
  (listing_status lid s4 = Some "COMPLETED" /\
   proposal_status pid s4 = Some "PAID" /\
   List.length (transactions s4) = S (List.length (transactions s))).
Proof.
  intros Hl Hopen Hu Hfresh Hbody Hfee Htax pid lid s1 s2 s3 s4.
  (* the offer *)
  destruct (create_proposal_runs s prop user supply Hl Hopen Hu)
    as (t1 & new & Hrun1 & Hid & Hsup & Hbuy & Hst & Hp1 & Hf1 & Hw1 & Ht1).
  assert (Es1 : s1 = t1) by (unfold s1; cbn [serve]; now rewrite Hrun1).
  assert (Hfind1 : find (fun p => Proposal.id p =? pid) (proposals t1) = Some new).
  { rewrite Hp1. apply find_snoc_fresh; [exact Hfresh|].
    rewrite Hid. apply String.eqb_refl. }
  assert (Hl1 : find (fun f => Listing.id f =? Proposal.supply_id new) (farmers t1)
                = Some supply) by (now rewrite Hf1, Hsup).
  (* its acceptance *)
  destruct (accept_runs t1 pid anyone new supply Hfind1 Hl1)
    as (t2 & Hrun2 & Hp2 & Hf2 & Hw2 & Ht2).
  assert (Es2 : s2 = t2) by (unfold s2; rewrite Es1; cbn [serve]; now rewrite Hrun2).
  set (accepted := Proposal.set_status "ACCEPTED" new).
  set (awaiting := Listing.set_buyer_id (Proposal.buyer_id new)
                     (Listing.set_status "AWAITING_PAYMENT" supply)).
  assert (Hfind2 : find (fun p => Proposal.id p =? pid) (proposals t2)
                   = Some accepted).
  { rewrite Hp2, find_update_first by (intros x Hx; exact Hx). now rewrite Hfind1. }
  assert (Hl2 : find (fun f => Listing.id f =? Proposal.supply_id accepted)
                     (farmers t2) = Some awaiting).
  { rewrite Hf2. cbn [accepted Proposal.set_status Proposal.supply_id].
    rewrite find_update_first by (intros x Hx; exact Hx). now rewrite Hl1. }
  (* the payment *)
  destruct (pay_fee_runs t2 pid accepted awaiting Hfind2 Hl2)
    as (t3 & Hrun3 & Hp3 & Hf3 & Hw3 & Ht3).
  cbn [accepted Proposal.set_status Proposal.buyer_id] in Hrun3. rewrite Hbuy in Hrun3.
  assert (Es3 : s3 = t3) by (unfold s3; rewrite Es2; cbn [serve]; now rewrite Hrun3).
  set (paid := Proposal.set_status "PAID" accepted).
  set (sold := Listing.set_status "SOLD" awaiting).
  assert (Hfind3 : find (fun p => Proposal.id p =? pid) (proposals t3) = Some paid).
  { rewrite Hp3, find_update_first by (intros x Hx; exact Hx). now rewrite Hfind2. }
  assert (Hl3 : find (fun f => Listing.id f =? lid) (farmers t3) = Some sold).
  { rewrite Hf3. cbn [accepted Proposal.set_status Proposal.supply_id].
    rewrite Hsup. fold lid.
    rewrite find_update_first by (intros x Hx; exact Hx).
    cbn [accepted Proposal.set_status Proposal.supply_id] in Hl2.
    rewrite Hsup in Hl2. fold lid in Hl2. now rewrite Hl2. }
  (* the finalization *)
  assert (Hpaid : exists proposal,
             find (fun p => (Proposal.supply_id p =? lid)
                            && (Proposal.status p =? "PAID")) (proposals t3)
             = Some proposal).
  { apply (find_of_member _ _ paid).
    - exact (proj1 (find_some _ _ Hfind3)).
    - cbn [paid accepted Proposal.set_status Proposal.supply_id Proposal.status].
      rewrite Hsup. fold lid. now rewrite String.eqb_refl. }
  destruct Hpaid as (proposal & Hpaid).
  destruct (finalize_runs t3 lid payment sold proposal Hl3 Hpaid
              (or_intror (conj Hfee Htax)))
    as (t4 & tx & n1 & n2 & Hrun4 & _ & _ & _ & Htx4 & Hf4 & Hp4 & _).
  assert (Es4 : s4 = t4).
  { unfold s4. rewrite Es3. cbn [serve]. unfold finalize_endpoint.
    rewrite Hbuy in *. cbn [sold awaiting Listing.set_status Listing.set_buyer_id
                            Listing.owner_id] in Hrun4.
    now rewrite Hbody, Hrun4. }
  rewrite Es1, Es2, Es3, Es4. unfold listing_status, proposal_status.
  repeat split.
  - fold lid in Hl. now rewrite Hf1, Hl, <- Hopen.
  - now rewrite Hfind1, <- Hst.
  - cbn [accepted Proposal.set_status Proposal.supply_id] in Hl2.
    rewrite Hsup in Hl2. fold lid in Hl2. now rewrite Hl2.
  - now rewrite Hfind2.
  - now rewrite Hl3.
  - now rewrite Hfind3.
  - rewrite Hf4, find_update_first by (intros x Hx; exact Hx). now rewrite Hl3.
  - now rewrite Hp4, Hfind3.
  - rewrite Htx4, length_app, Ht3, Ht2, Ht1. cbn. lia.
Qed.

End Invariants.

(* ================================================================== *)
(** ** Reading back *)

Lemma SFltb_asym (x y : spec_float) : SFltb x y = true -> SFltb y x = false.
Proof.
  unfold SFltb.
  destruct x as [sx|sx| |sx mx ex], y as [sy|sy| |sy my ey]; cbn;
    try discriminate; try reflexivity;
    try (destruct sx; discriminate || reflexivity);
    try (destruct sy; discriminate || reflexivity);
    try (destruct sx, sy; discriminate || reflexivity).
  destruct sx, sy; try discriminate; try reflexivity;
    rewrite (Z.compare_antisym ex ey);
    destruct (ex ?= ey)%Z; cbn; try discriminate; try reflexivity;
    change (Pos.compare_cont Eq my mx) with (Pos.compare my mx);
    change (Pos.compare_cont Eq mx my) with (Pos.compare mx my);
    rewrite (Pos.compare_antisym mx my);
    destruct (mx ?= my)%positive; cbn; discriminate || reflexivity.
Qed.

Lemma ltb_asym (x y : float) : (x <? y)%float = true -> (y <? x)%float = false.
Proof. rewrite !ltb_spec. apply SFltb_asym. Qed.

Section Sorting.

Context {A : Type} (key : A -> float).

(** "Is not immediately followed by a strictly newer one". *)
Definition not_older (a b : A) : Prop := (key a <? key b)%float = false.

Lemma insert_desc_perm (x : A) (l : list A) :
  Permutation (insert_desc key x l) (x :: l).
Proof.
  induction l as [|y r IH]; cbn; [reflexivity|].
  destruct (key x <? key y)%float; [|reflexivity].
  rewrite IH. apply perm_swap.
Qed.

Lemma sorted_desc_perm (l : list A) : Permutation (sorted_desc key l) l.
Proof.
  induction l as [|x r IH]; cbn; [reflexivity|].
  rewrite insert_desc_perm. now constructor.
Qed.

Lemma insert_desc_sorted (x : A) (l : list A) :
  Sorted not_older l -> Sorted not_older (insert_desc key x l).
Proof.
  induction 1 as [|y r Hr IH Hhd]; cbn; [repeat constructor|].
  destruct (key x <? key y)%float eqn:Hxy.
  - constructor; [exact IH|].
    destruct r as [|z r']; cbn.
    + constructor. now apply ltb_asym.
    + destruct (key x <? key z)%float.
      * constructor. now inversion Hhd.
      * constructor. now apply ltb_asym.
  - constructor; [now constructor|]. constructor. exact Hxy.
Qed.

Lemma sorted_desc_sorted (l : list A) : Sorted not_older (sorted_desc key l).
Proof.
  induction l as [|x r IH]; cbn; [constructor|].
  now apply insert_desc_sorted.
Qed.

End Sorting.

(** X16: reading the inbox never fails and writes nothing; the answer
    holds exactly the notifications addressed to the caller, each as often
    as it is stored, and none is immediately followed by a strictly newer
    one. *)
Theorem get_notifs_is_the_callers_inbox (s : Store) (user : string) :
  exists inbox,
    get_notifs user s = Return inbox s /\
    Permutation inbox
      (filter (fun n => match Notification.user_id n with
                        | Some u => u =? user
                        | None => false
                        end) (notifications s)) /\
    (forall n, In n inbox <->
               In n (notifications s) /\ Notification.user_id n = Some user) /\
    Sorted (not_older Notification.timestamp) inbox.
Proof.
  unfold get_notifs. plumbing. eexists. split; [reflexivity|].
  split; [apply sorted_desc_perm|]. split; [|apply sorted_desc_sorted].
  intros n. rewrite (Permutation_in' (eq_refl n) (sorted_desc_perm _ _)).
  rewrite filter_In. split; intros [Hin Hu]; (split; [exact Hin|]).
  - destruct (Notification.user_id n) as [u|]; [|discriminate].
    apply String.eqb_eq in Hu. now subst.
  - rewrite Hu. apply String.eqb_refl.
Qed.

(** X17: reading the received proposals never fails and writes nothing;
    the answer holds exactly the proposals whose listing reference is the
    id of a listing owned by the caller, none immediately followed by a
    strictly newer one. *)
Theorem get_received_proposals_are_on_own_listings (s : Store) (user : string) :
  exists received,
    get_received_proposals user s = Return received s /\
    (forall p, In p received <->
               In p (proposals s) /\
               exists f, In f (farmers s) /\ Listing.owner_id f = user /\
                         Listing.id f = Proposal.supply_id p) /\
    Sorted (not_older Proposal.timestamp) received.
Proof.
  unfold get_received_proposals. plumbing. eexists. split; [reflexivity|].
  split; [|apply sorted_desc_sorted].
  intros p. rewrite (Permutation_in' (eq_refl p) (sorted_desc_perm _ _)).
  rewrite filter_In, existsb_exists. split.
  - intros [Hin (i & Hi & Heq)]. split; [exact Hin|].
    apply in_map_iff in Hi. destruct Hi as (f & <- & Hf).
    apply filter_In in Hf. destruct Hf as [Hf Hown].
    apply String.eqb_eq in Hown, Heq. exists f. auto.
  - intros [Hin (f & Hf & Hown & Hid)]. split; [exact Hin|].
    exists (Listing.id f). split.
    + apply in_map. apply filter_In. split; [exact Hf|].
      rewrite Hown. apply String.eqb_refl.
    + rewrite Hid. apply String.eqb_refl.
Qed.

(* ================================================================== *)
(** ** The reference data cannot be reached *)

(** X18: [get_refs] never hands out the catalog.  What it returns is
    always a list: the empty one when the file was missing (the defaults
    are written, and not returned), and the empty one again whenever the
    file holds a dict, which is the only shape the backend writes there. *)
Theorem sys_refs_never_serves_the_catalog (f : json_file) :
  exists items,
    sys_refs f
    = Answered (PyList items) (match f with Absent => Holds default_refs | _ => f end) /\
    (f = Absent -> items = []) /\
    (forall entries, f = Holds (PyDict entries) -> items = []) /\
    getitem (PyList items) "breeds" = NotSubscriptable /\
    getitem (PyList items) "custom_cities" = NotSubscriptable.
Proof.
  unfold sys_refs, get_refs. eexists. split; [reflexivity|].
  repeat split.
  - now intros ->.
  - now intros entries ->.
Qed.

Lemma get_current_admin_admits (s : Store) (admin : string) (u : User.t) :
  find (fun u => User.username u =? admin) (users s) = Some u ->
  User.role u = Some "admin" ->
  get_current_admin admin s = Return u s.
Proof.
  intros Hu Hr. unfold get_current_admin. plumbing. now rewrite Hu, Hr.
Qed.

Lemma get_current_admin_refuses (s : Store) (admin : string) :
  (forall u, find (fun u => User.username u =? admin) (users s) = Some u ->
             User.role u <> Some "admin") ->
  get_current_admin admin s
  = Raise (HTTPException Forbidden (Some "Admin required")) s.
Proof.
  intros Hn. unfold get_current_admin. plumbing.
  destruct (find _ (users s)) as [u|] eqn:Hu; [|reflexivity].
  specialize (Hn u eq_refl).
  destruct (User.role u) as [r|]; [|reflexivity].
  destruct (String.eqb_spec r "admin") as [->|Hr]; [now elim Hn|reflexivity].
Qed.

(** X19: no administration route ever changes the reference data.  For a
    caller who is not an administrator each of the four routes fails with
    Forbidden and leaves the file alone; for an administrator each of them
    raises [TypeError], whatever the file holds and whatever is asked: the
    only write is that of the defaults when the file was missing. *)
Theorem reference_edits_never_succeed
    (s : Store) (f : json_file) (admin name state : string) :
  (forall u,
     find (fun u => User.username u =? admin) (users s) = Some u ->
     User.role u = Some "admin" ->
     let f' := match f with Absent => Holds default_refs | _ => f end in
     add_breed name admin s f = Failed TypeError f' /\
     del_breed name admin s f = Failed TypeError f' /\
     add_city state name admin s f = Failed TypeError f' /\
     del_city state name admin s f = Failed TypeError f') /\
  ((forall u, find (fun u => User.username u =? admin) (users s) = Some u ->
              User.role u <> Some "admin") ->
   let e := HTTPException Forbidden (Some "Admin required") in
   add_breed name admin s f = Failed e f /\
   del_breed name admin s f = Failed e f /\
   add_city state name admin s f = Failed e f /\
   del_city state name admin s f = Failed e f).
Proof.
  unfold add_breed, del_breed, add_city, del_city, as_admin. split.
  - intros u Hu Hr. rewrite (get_current_admin_admits s admin u Hu Hr).
    repeat split.
  - intros Hn. rewrite (get_current_admin_refuses s admin Hn).
    repeat split.
Qed.

(* ================================================================== *)
(** ** Deleting a user *)

(** X20: deleting a user is refused with Forbidden, the files untouched,
    unless the caller is an administrator.  For an administrator it
    removes every record of that name and keeps the others in order; it
    leaves the listings, proposals and notifications of the deleted user in
    place; and an administrator who deletes their own name no longer passes
    the administrator check. *)
Theorem del_user_outcome (s : Store) (username admin : string) :
  ((forall u, find (fun u => User.username u =? admin) (users s) = Some u ->
              User.role u <> Some "admin") ->
   del_user username admin s
   = Raise (HTTPException Forbidden (Some "Admin required")) s) /\
  (forall u,
     find (fun u => User.username u =? admin) (users s) = Some u ->
     User.role u = Some "admin" ->
     exists s',
       del_user username admin s = Return "Deleted" s' /\
       users s' = filter (fun u => negb (User.username u =? username)) (users s) /\
       (forall v, In v (users s') <->
                  In v (users s) /\ User.username v <> username) /\
       farmers s' = farmers s /\ proposals s' = proposals s /\
       notifications s' = notifications s /\
       get_current_admin username s'
       = Raise (HTTPException Forbidden (Some "Admin required")) s').
Proof.
  split.
  - intros Hn. unfold del_user, bind.
    now rewrite (get_current_admin_refuses s admin Hn).
  - intros u Hu Hr. unfold del_user, bind.
    rewrite (get_current_admin_admits s admin u Hu Hr). plumbing.
    eexists. split; [reflexivity|].
    cbn [users farmers proposals notifications].
    repeat apply conj; try reflexivity.
    + intros v. rewrite filter_In, negb_true_iff, String.eqb_neq. reflexivity.
    + apply get_current_admin_refuses. cbn [users]. intros v Hv.
      apply find_some in Hv. destruct Hv as [Hin Hname].
      apply filter_In in Hin. destruct Hin as [_ Hne].
      rewrite Hname in Hne. discriminate Hne.
Qed.

(* ================================================================== *)
(** ** The lifecycle on the sample deployment *)

(** C1: the handlers do not keep a listing's status moving forward.  On the
    sample deployment, after offer, acceptance and deposit the listing is
    SOLD, and accepting the same proposal once more puts it back to
    AWAITING_PAYMENT; after finalization it is COMPLETED, and paying the
    deposit once more puts it back to SOLD. *)
Theorem C1_listing_status_moves_backward :
  sample_sold = sample_serve_all sample_sale sample_store /\
  listing_status "L1" sample_sold = Some "SOLD" /\
  listing_status "L1"
    (sample_serve_all [HandleProposal "uuid-0" "accept" "farmer1"] sample_sold)
  = Some "AWAITING_PAYMENT" /\
  listing_status "L1"
    (sample_serve_all [Finalize "L1" sample_body "farmer1"] sample_weighed)
  = Some "COMPLETED" /\
  listing_status "L1"
    (sample_serve_all [Finalize "L1" sample_body "farmer1";
                       PayFee "uuid-0" "buyer1"] sample_weighed)
  = Some "SOLD" /\
  listing_rank "AWAITING_PAYMENT" = Some 1%nat /\
  listing_rank "SOLD" = Some 2%nat /\
  listing_rank "COMPLETED" = Some 3%nat.
Proof. repeat split; vm_compute; reflexivity. Qed.

(** C3: the handlers do not keep a proposal's status monotonic, and PAID is
    not reached from ACCEPTED only.  On the sample deployment the buyer's
    payment turns a PENDING proposal, and likewise a REJECTED one, into
    PAID; and a rejection turns the PAID proposal into REJECTED. *)
Theorem C3_proposal_status_not_monotonic :
  proposal_status "uuid-0" sample_offered = Some "PENDING" /\
  proposal_status "uuid-0"
    (sample_serve_all [PayFee "uuid-0" "buyer1"] sample_offered)
  = Some "PAID" /\
  proposal_status "uuid-0"
    (sample_serve_all [HandleProposal "uuid-0" "reject" "farmer1"] sample_offered)
  = Some "REJECTED" /\
  proposal_status "uuid-0"
    (sample_serve_all [HandleProposal "uuid-0" "reject" "farmer1";
                       PayFee "uuid-0" "buyer1"] sample_offered)
  = Some "PAID" /\
  proposal_status "uuid-0" sample_sold = Some "PAID" /\
  proposal_status "uuid-0"
    (sample_serve_all [HandleProposal "uuid-0" "reject" "buyer2"] sample_sold)
  = Some "REJECTED".
Proof. repeat split; vm_compute; reflexivity. Qed.

(** C5: the handlers neither keep one transaction per listing nor leave a
    completed transaction alone.  On the sample deployment, finalizing the
    weighed sale twice leaves two transactions of the listing; and after
    one finalization the completed transaction, of final amount 30900,
    has final amount 0.67 once any user has submitted a slaughterhouse
    weight for it. *)
Theorem C5_transactions_repeat_and_change :
  map Transaction.id
    (transactions_of "L1"
       (sample_serve_all [Finalize "L1" sample_body "farmer1";
                          Finalize "L1" sample_body "farmer1"] sample_weighed))
  = ["uuid-12"; "uuid-18"] /\
  map (fun t => (Transaction.id t, Transaction.status t, Transaction.final_amount t))
    (transactions_of "L1"
       (sample_serve_all [Finalize "L1" sample_body "farmer1"] sample_weighed))
  = [("uuid-12", Some "completed", Some 30900%float)] /\
  map (fun t => (Transaction.id t, Transaction.status t, Transaction.final_amount t))
    (transactions_of "L1"
       (sample_serve_all [Finalize "L1" sample_body "farmer1";
                          SlaughterhouseWeight "uuid-12" 10 1 1 "buyer2"]
                         sample_weighed))
  = [("uuid-12", Some "completed", Some 0.67%float)].
Proof. repeat split; vm_compute; reflexivity. Qed.


(** C4, as stated, fails where the proposal is missing: the answer is
    Forbidden, not NotFound. *)
Lemma C4_missing_proposal_is_not_NotFound :
  find (fun p => Proposal.id p =? "uuid-9") (proposals sample_store) = None /\
  pay_fee sample_env "uuid-9" "buyer1" sample_store
  = Raise (HTTPException Forbidden None) sample_store /\
  forall d, pay_fee sample_env "uuid-9" "buyer1" sample_store
            <> Raise (HTTPException NotFound d) sample_store.
Proof.
  repeat split; try reflexivity.
  intros d H. vm_compute in H. discriminate H.
Qed.

(** C6, as stated, fails where a farmer submits to an open listing: the
    answer has status 400, not Forbidden. *)
Lemma C6_farmer_is_not_Forbidden :
  listing_status "L1" sample_store = Some "OPEN" /\
  create_proposal sample_env sample_offer "farmer1" sample_store
  = Raise (HTTPException 400 (Some "Farmers cannot buy")) sample_store /\
  forall d, create_proposal sample_env sample_offer "farmer1" sample_store
            <> Raise (HTTPException Forbidden d) sample_store.
Proof.
  repeat split; try reflexivity.
  intros d H. vm_compute in H. discriminate H.
Qed.

(* ================================================================== *)
(** ** The theorems at work on the sample deployment *)

Lemma C9_witness :
  find (fun p => Proposal.id p =? "uuid-0") (proposals sample_offered)
  = Some sample_pending /\
  "counter" <> "accept" /\
  "counter" <> "reject" /\
  handle_proposal sample_env "uuid-0" "counter" "farmer1" sample_offered
  = Return "Updated" sample_offered.
Proof.
  repeat apply conj; [reflexivity | discriminate | discriminate |].
  apply (C9_other_action_is_silent_noop sample_env sample_offered
           "uuid-0" "counter" "farmer1" sample_pending);
    [reflexivity | discriminate | discriminate].
Defined.

Lemma C10_witness :
  get_weights "L9" "buyer2" sample_sold
  = Return ([], mkWeightSummary 0 0 0%float) sample_sold /\
  exists r,
    get_weights "L1" "farmer1" sample_weighed = Return r sample_weighed /\
    get_weights "L1" "buyer2" (overwrite DB_FARMERS [] sample_weighed)
    = Return r (overwrite DB_FARMERS [] sample_weighed).
Proof.
  split.
  - apply (proj1 (proj2 (C10_get_weights_never_fails sample_sold "L9" "buyer2"))).
    intros w [].
  - apply (proj2 (proj2 (C10_get_weights_never_fails sample_weighed "L1" "farmer1"))
             (overwrite DB_FARMERS [] sample_weighed) "buyer2").
    reflexivity.
Defined.

Lemma C4_witness :
  pay_fee sample_env "uuid-9" "buyer1" sample_store
  = Raise (HTTPException Forbidden None) sample_store /\
  pay_fee sample_env "uuid-0" "buyer2" sample_offered
  = Raise (HTTPException Forbidden None) sample_offered /\
  pay_fee sample_env "uuid-0" "buyer1" sample_orphaned
  = Raise (HTTPException NotFound None) sample_orphaned /\
  exists s' n,
    pay_fee sample_env "uuid-0" "buyer1" sample_accepted
    = Return ("Paid", None, None) s' /\
    find (fun f => Listing.id f =? "L1") (farmers s') = Some sample_listing_sold /\
    find (fun p => Proposal.id p =? "uuid-0") (proposals s')
    = Some (Proposal.set_status "PAID" (Proposal.set_status "ACCEPTED" sample_pending)) /\
    notifications s' = (notifications sample_accepted ++ [n])%list /\
    Notification.user_id n = Some "farmer1" /\
    Notification.message n = "Deal Closed! Buyer paid fee.".
Proof.
  repeat apply conj.
  - apply (proj1 (C4_pay_fee_outcomes sample_env sample_store "uuid-9" "buyer1")).
    reflexivity.
  - apply (proj1 (proj2 (C4_pay_fee_outcomes sample_env sample_offered
                           "uuid-0" "buyer2")) sample_pending);
      [reflexivity | discriminate].
  - apply (proj1 (proj2 (proj2 (C4_pay_fee_outcomes sample_env sample_orphaned
                                  "uuid-0" "buyer1"))) sample_pending);
      reflexivity.
  - exact (proj2 (proj2 (proj2 (C4_pay_fee_outcomes sample_env sample_accepted
                                  "uuid-0" "buyer1")))
             (Proposal.set_status "ACCEPTED" sample_pending)
             sample_listing_accepted eq_refl eq_refl eq_refl).
Defined.

Lemma C6_witness :
  create_proposal sample_env (ProposalIn.mk "L9" 300%float None) "buyer1" sample_store
  = Raise (HTTPException NotFound (Some "Supply not found")) sample_store /\
  create_proposal sample_env sample_offer "buyer2" sample_sold
  = Raise (HTTPException InvalidState (Some "Listing not open")) sample_sold /\
  create_proposal sample_env sample_offer "farmer1" sample_store
  = Raise (HTTPException 400 (Some "Farmers cannot buy")) sample_store /\
  exists s' new_prop n,
    create_proposal sample_env sample_offer "buyer1" sample_store
    = Return ("Sent", Proposal.id new_prop) s' /\
    proposals s' = [new_prop] /\
    Proposal.status new_prop = "PENDING" /\
    Proposal.supply_id new_prop = "L1" /\
    Proposal.buyer_id new_prop = "buyer1" /\
    Proposal.price_offer new_prop = 300%float /\
    Proposal.buyer_contact new_prop = "222" /\
    farmers s' = [sample_listing] /\
    notifications s' = [n] /\
    Notification.user_id n = Some "farmer1" /\
    Notification.payload n = DProposal new_prop.
Proof.
  repeat apply conj.
  - apply (proj1 (C6_create_proposal_outcomes sample_env sample_store
                    (ProposalIn.mk "L9" 300%float None) "buyer1")).
    reflexivity.
  - apply (proj1 (proj2 (C6_create_proposal_outcomes sample_env sample_sold
                           sample_offer "buyer2")) sample_listing_sold);
      [reflexivity | discriminate].
  - apply (proj1 (proj2 (proj2 (C6_create_proposal_outcomes sample_env sample_store
                                  sample_offer "farmer1")))
             sample_listing (User.mk "farmer1" (Some "farmer") "111"));
      reflexivity.
  - exact (proj2 (proj2 (proj2 (C6_create_proposal_outcomes sample_env sample_store
                                  sample_offer "buyer1")))
             sample_listing eq_refl eq_refl eq_refl).
Defined.

Lemma C7_witness :
  add_weight_entry sample_env "L9" (WeightEntry.mk 1 5 1400%float None) "farmer1"
    sample_sold
  = Raise (HTTPException NotFound (Some "Listing not found")) sample_sold /\
  add_weight_entry sample_env "L1" (WeightEntry.mk 1 5 1400%float None) "buyer1"
    sample_sold
  = Raise (HTTPException Forbidden (Some "Not authorized")) sample_sold /\
  add_weight_entry sample_env "L1" (WeightEntry.mk 1 5 1400%float None) "farmer1"
    sample_store
  = Raise (HTTPException InvalidState (Some "Listing must be reserved first"))
          sample_store /\
  exists s' entry,
    add_weight_entry sample_env "L1" (WeightEntry.mk 2 5 1600%float None) "farmer1"
      sample_half_weighed
    = Return (mkWeightAdded "Weight entry added" 10 0) s' /\
    weights s' = (weights sample_half_weighed ++ [entry])%list /\
    Weight.listing_id entry = "L1" /\
    Weight.batch_number entry = 2%Z /\
    Weight.quantity entry = 5%Z /\
    Weight.total_weight entry = 1600%float /\
    (@None string = None -> Weight.timestamp entry = "2024-05-01T08:00:00") /\
    (forall t, @None string = Some t -> t <> "" -> Weight.timestamp entry = t) /\
    farmers s' = farmers sample_half_weighed /\
    ((10 <= 10)%Z ->
     exists n, notifications s' = (notifications sample_half_weighed ++ [n])%list /\
               Notification.user_id n = Some "farmer1" /\
               Notification.message n = "Weighing completed for listing #L1" /\
               Notification.payload n = DWeighing "L1" 10) /\
    ((10 < 10)%Z -> notifications s' = notifications sample_half_weighed).
Proof.
  repeat apply conj.
  - apply (proj1 (C7_add_weight_entry_outcomes sample_env sample_sold "L9" "farmer1"
                    (WeightEntry.mk 1 5 1400%float None))).
    reflexivity.
  - apply (proj1 (proj2 (C7_add_weight_entry_outcomes sample_env sample_sold "L1"
                           "buyer1" (WeightEntry.mk 1 5 1400%float None)))
             sample_listing_sold);
      [reflexivity | discriminate].
  - apply (proj1 (proj2 (proj2 (C7_add_weight_entry_outcomes sample_env sample_store
                                  "L1" "farmer1"
                                  (WeightEntry.mk 1 5 1400%float None))))
             sample_listing);
      [reflexivity | reflexivity | discriminate | discriminate].
  - exact (proj2 (proj2 (proj2 (C7_add_weight_entry_outcomes sample_env
                                  sample_half_weighed "L1" "farmer1"
                                  (WeightEntry.mk 2 5 1600%float None))))
             sample_listing_sold eq_refl eq_refl (or_intror eq_refl)).
Defined.


Lemma C8_witness :
  finalize_endpoint sample_env "L1"
    (FinalPaymentBody.mk "nfe.pdf" "gta.pdf" None None (Some 0.6%float))
    "farmer1" sample_weighed
  = Raise RequestValidationError sample_weighed /\
  exists s' t',
    submit_slaughterhouse_weight sample_env "uuid-8" 6000 0.9 300 "buyer2"
      sample_dead_weight
    = Return ("Final weight submitted", mkCalculation 6000 400 108000) s' /\
    find (fun t => Transaction.id t =? "uuid-8") (transactions s') = Some t' /\
    Transaction.yield_rate t' = Some 0.9%float /\
    Transaction.final_amount t' = Some 108000%float /\
    Transaction.status t' = Some "completed".
Proof.
  split.
  - apply (proj1 (C8_yield_rate_checked_only_by_finalize sample_env) sample_weighed
             "L1" "farmer1" _ 0.6%float); reflexivity.
  - destruct (find (fun t => Transaction.id t =? "uuid-8")
                   (transactions sample_dead_weight)) as [t|] eqn:Ht;
      [|discriminate Ht].
    exact (proj2 (C8_yield_rate_checked_only_by_finalize sample_env)
             sample_dead_weight "uuid-8" "buyer2" 6000%float 0.9%float 300%float
             t Ht).
Defined.

(* ================================================================== *)
(** ** The further theorems at work on the sample deployment *)

Lemma listing_statuses_stay_in_lifecycle_witness :
  Forall (fun f => listing_rank (Listing.status f) <> None) (farmers sample_sold) /\
  Forall (fun f => listing_rank (Listing.status f) <> None)
         (farmers (serve sample_env (HandleProposal "uuid-0" "accept" "buyer2")
                         sample_sold)).
Proof.
  assert (H : Forall (fun f => listing_rank (Listing.status f) <> None)
                     (farmers sample_sold)).
  { repeat constructor. intros E. vm_compute in E. discriminate E. }
  split; [exact H|].
  exact (listing_statuses_stay_in_lifecycle sample_env
           (HandleProposal "uuid-0" "accept" "buyer2") sample_sold H).
Defined.

Lemma accept_outcome_witness :
  (exists s',
     handle_proposal sample_env "uuid-0" "accept" "buyer2" sample_offered
     = Return "Updated" s' /\
     listing_status "L1" s' = Some "AWAITING_PAYMENT" /\
     proposal_status "uuid-0" s' = Some "ACCEPTED") /\
  (exists s',
     handle_proposal sample_env "uuid-0" "accept" "buyer2" sample_orphaned
     = Return "Updated" s' /\
     proposal_status "uuid-0" s' = Some "ACCEPTED" /\
     notifications s' = notifications sample_orphaned).
Proof.
  split.
  - destruct (proj1 (accept_outcome sample_env sample_offered "uuid-0" "buyer2"
                       sample_pending eq_refl) sample_listing eq_refl)
      as (s' & n & Hrun & Hp & Hl & _).
    exists s'. repeat apply conj.
    + exact Hrun.
    + exact (f_equal (option_map Listing.status) Hl).
    + exact (f_equal (option_map Proposal.status) Hp).
  - destruct (proj2 (accept_outcome sample_env sample_orphaned "uuid-0" "buyer2"
                       sample_pending eq_refl) eq_refl)
      as (s' & Hrun & Hp & _ & Hn).
    exists s'. repeat apply conj.
    + exact Hrun.
    + exact (f_equal (option_map Proposal.status) Hp).
    + exact Hn.
Defined.

Lemma reject_outcome_witness :
  handle_proposal sample_env "uuid-9" "accept" "farmer1" sample_store
  = Raise (HTTPException NotFound (Some "Not found")) sample_store /\
  exists s',
    handle_proposal sample_env "uuid-0" "reject" "buyer2" sample_sold
    = Return "Updated" s' /\
    proposal_status "uuid-0" s' = Some "REJECTED" /\
    farmers s' = farmers sample_sold /\
    notifications s' = notifications sample_sold.
Proof.
  split.
  - exact (proj1 (reject_outcome sample_env sample_store "uuid-9" "farmer1")
             eq_refl "accept").
  - destruct (proj2 (reject_outcome sample_env sample_sold "uuid-0" "buyer2")
                sample_paid eq_refl)
      as (s' & Hrun & Hp & Hf & Hn & _).
    exists s'. repeat apply conj; try assumption.
    exact (f_equal (option_map Proposal.status) Hp).
Defined.

Lemma record_internal_weight_outcome_witness :
  record_internal_weight sample_env "L9" 4500 "farmer1" sample_sold
  = Raise (HTTPException Forbidden (Some "Not authorized")) sample_sold /\
  record_internal_weight sample_env "L1" 4500 "buyer1" sample_sold
  = Raise (HTTPException Forbidden (Some "Not authorized")) sample_sold /\
  exists s',
    record_internal_weight sample_env "L1" 4500 "farmer1" sample_sold
    = Return "Internal weight recorded (for reference only)" s' /\
    map Listing.status (farmers s') = ["SOLD"] /\
    notifications s' = notifications sample_sold.
Proof.
  repeat apply conj.
  - exact (proj1 (record_internal_weight_outcome sample_env sample_sold "L9"
                    "farmer1" 4500%float) eq_refl).
  - apply (proj1 (proj2 (record_internal_weight_outcome sample_env sample_sold "L1"
                           "buyer1" 4500%float)) sample_listing_sold eq_refl).
    discriminate.
  - destruct (proj2 (proj2 (record_internal_weight_outcome sample_env sample_sold
                              "L1" "farmer1" 4500%float))
                sample_listing_sold eq_refl eq_refl)
      as (s' & Hrun & _ & Hst & _ & Hn & _).
    exists s'. repeat apply conj; assumption.
Defined.

Lemma request_advance_payment_outcome_witness :
  request_advance_payment sample_env "L9" 300 "farmer1" sample_sold
  = Raise (HTTPException Forbidden (Some "Not authorized")) sample_sold /\
  request_advance_payment sample_env "L1" 300 "buyer1" sample_sold
  = Raise (HTTPException Forbidden (Some "Not authorized")) sample_sold /\
  (exists s' n,
     request_advance_payment sample_env "L1" 300 "farmer1" sample_sold
     = Return "Advance payment requested" s' /\
     map Listing.status (farmers s') = ["SOLD"] /\
     notifications s' = (notifications sample_sold ++ [n])%list /\
     Notification.user_id n = Some "buyer1") /\
  (exists s',
     request_advance_payment sample_env "L1" 300 "farmer1" sample_store
     = Return "Advance payment requested" s' /\
     notifications s' = notifications sample_store).
Proof.
  repeat apply conj.
  - exact (proj1 (request_advance_payment_outcome sample_env sample_sold "L9"
                    "farmer1" 300%float) eq_refl).
  - apply (proj1 (proj2 (request_advance_payment_outcome sample_env sample_sold "L1"
                           "buyer1" 300%float)) sample_listing_sold eq_refl).
    discriminate.
  - destruct (proj2 (proj2 (request_advance_payment_outcome sample_env sample_sold
                              "L1" "farmer1" 300%float))
                sample_listing_sold eq_refl eq_refl)
      as (s' & Hrun & _ & Hst & _ & _ & _ & _ & Hsome).
    destruct (Hsome "buyer1") as (n & Hn & Hu & _); [reflexivity|discriminate|].
    exists s', n. repeat apply conj; assumption.
  - destruct (proj2 (proj2 (request_advance_payment_outcome sample_env sample_store
                              "L1" "farmer1" 300%float))
                sample_listing eq_refl eq_refl)
      as (s' & Hrun & _ & _ & _ & _ & _ & Hnone & _).
    exists s'. split; [exact Hrun | exact (Hnone eq_refl)].
Defined.

Lemma finalize_forbidden_and_notices_witness :
  finalize_transaction sample_env "L9" sample_payment "farmer1" sample_weighed
  = Raise (HTTPException Forbidden (Some "Not authorized")) sample_weighed /\
  finalize_transaction sample_env "L1" sample_payment "buyer1" sample_weighed
  = Raise (HTTPException Forbidden (Some "Not authorized")) sample_weighed /\
  exists s' t n1 n2,
    finalize_transaction sample_env "L1" sample_payment "farmer1" sample_weighed
    = Return ("Transaction finalized", t) s' /\
    notifications s' = (notifications sample_weighed ++ [n1; n2])%list /\
    Notification.user_id n1 = Some "buyer1" /\
    Notification.user_id n2 = Some "buyer1".
Proof.
  repeat apply conj.
  - exact (proj1 (finalize_forbidden_and_notices sample_env sample_weighed "L9"
                    "farmer1" sample_payment) eq_refl).
  - apply (proj1 (proj2 (finalize_forbidden_and_notices sample_env sample_weighed
                           "L1" "buyer1" sample_payment))
             sample_listing_sold eq_refl).
    discriminate.
  - destruct (proj2 (proj2 (finalize_forbidden_and_notices sample_env
                              sample_weighed "L1" "farmer1" sample_payment))
                sample_listing_sold sample_paid)
      as (s' & t & n1 & n2 & Hrun & Hn & H1 & _ & H2 & _);
      [reflexivity | reflexivity | reflexivity | right; split; discriminate |].
    exists s', t, n1, n2. repeat apply conj; assumption.
Defined.


Lemma weights_read_back_witness :
  add_weight_entry sample_env "L1" (WeightEntry.mk 2 5 1600%float None) "farmer1"
    sample_half_weighed
  = Return (mkWeightAdded "Weight entry added" 10 0) sample_weighed /\
  exists entry rest,
    get_weights "L1" "buyer2" sample_weighed
    = Return ((filter (fun w => Weight.listing_id w =? "L1")
                      (weights sample_half_weighed) ++ [entry])%list, rest)
             sample_weighed /\
    total_batches rest = 2%nat /\
    total_quantity rest = 10%Z.
Proof.
  assert (H : add_weight_entry sample_env "L1" (WeightEntry.mk 2 5 1600%float None)
                "farmer1" sample_half_weighed
              = Return (mkWeightAdded "Weight entry added" 10 0) sample_weighed)
    by (vm_compute; reflexivity).
  split; [exact H|].
  destruct (weights_read_back sample_env sample_half_weighed sample_weighed "L1"
              "farmer1" "buyer2" _ _ H)
    as (entry & rest & Hget & _ & _ & Hb & Hq).
  exists entry, rest. repeat apply conj; assumption.
Defined.

Lemma slaughterhouse_outcome_witness :
  submit_slaughterhouse_weight sample_env "uuid-9" 6000 0.5 300 "buyer2" sample_sold
  = Raise (HTTPException NotFound (Some "Transaction not found")) sample_sold /\
  exists s' t',
    submit_slaughterhouse_weight sample_env "uuid-8" 6000 0.5 300 "buyer2"
      sample_dead_weight
    = Return ("Final weight submitted", mkCalculation 6000 400 60000) s' /\
    find (fun t => Transaction.id t =? "uuid-8") (transactions s') = Some t' /\
    Transaction.at_quantity t' = Some 400%float /\
    Transaction.yield_rate t' = Some 0.5%float /\
    Transaction.price_per_unit t' = Some 300%float /\
    Transaction.final_amount t' = Some 60000%float /\
    Transaction.status t' = Some "completed" /\
    Transaction.transport_fee t' = Some 200%float /\
    Transaction.gross_amount t' = None /\
    farmers s' = farmers sample_dead_weight.
Proof.
  split.
  - exact (proj1 (slaughterhouse_outcome sample_env sample_sold "uuid-9" "buyer2"
                    6000%float 0.5%float 300%float) eq_refl).
  - destruct (proj2 (slaughterhouse_outcome sample_env sample_dead_weight "uuid-8"
                       "buyer2" 6000%float 0.5%float 300%float)
                sample_awaiting eq_refl)
      as (s' & t' & Hrun & Hfind & Hq & Hy & Hp & Hfin & Hst & _ & _ & Hfee & _
          & Hgross & _ & Hf & _).
    exists s', t'. repeat apply conj; assumption.
Defined.

Lemma lifecycle_in_order_witness :
  listing_status "L1" sample_store = Some "OPEN" /\
  listing_status "L1"
    (sample_serve_all
       [CreateProposal sample_offer "buyer1";
        HandleProposal "uuid-0" "accept" "buyer2";
        PayFee "uuid-0" "buyer1";
        Finalize "L1" sample_body "farmer1"] sample_store)
  = Some "COMPLETED".
Proof.
  split; [reflexivity|].
  refine (proj1 (proj2 (proj2 (proj2
            (lifecycle_in_order sample_env sample_store sample_offer "buyer1"
               "buyer2" sample_listing sample_body sample_payment
               _ _ _ _ _ _ _)))));
    try reflexivity; discriminate.
Defined.

Lemma get_notifs_is_the_callers_inbox_witness :
  exists inbox,
    get_notifs "farmer1" sample_sold = Return inbox sample_sold /\
    List.length inbox = 2%nat /\
    forall n, In n inbox -> Notification.user_id n = Some "farmer1".
Proof.
  destruct (get_notifs_is_the_callers_inbox sample_sold "farmer1")
    as (inbox & Hrun & Hperm & Hin & _).
  exists inbox. repeat apply conj.
  - exact Hrun.
  - exact (Permutation_length Hperm).
  - intros n Hn. exact (proj2 (proj1 (Hin n) Hn)).
Defined.

Lemma get_received_proposals_are_on_own_listings_witness :
  exists received,
    get_received_proposals "farmer1" sample_sold = Return received sample_sold /\
    In sample_paid received.
Proof.
  destruct (get_received_proposals_are_on_own_listings sample_sold "farmer1")
    as (received & Hrun & Hin & _).
  exists received. split; [exact Hrun|].
  apply Hin. split; [left; reflexivity|].
  exists sample_listing_sold. repeat split. left. reflexivity.
Defined.

Lemma sys_refs_never_serves_the_catalog_witness :
  sys_refs Absent = Answered (PyList []) (Holds default_refs) /\
  sys_refs (Holds default_refs) = Answered (PyList []) (Holds default_refs).
Proof.
  split.
  - destruct (sys_refs_never_serves_the_catalog Absent)
      as (items & Hrun & Habs & _).
    rewrite (Habs eq_refl) in Hrun. exact Hrun.
  - destruct (sys_refs_never_serves_the_catalog (Holds default_refs))
      as (items & Hrun & _ & Hdict & _).
    rewrite (Hdict _ eq_refl) in Hrun. exact Hrun.
Defined.

Lemma reference_edits_never_succeed_witness :
  add_breed "Brahman" "root" sample_admin_store Absent
  = Failed TypeError (Holds default_refs) /\
  del_city "GO" "Goiania" "root" sample_admin_store (Holds default_refs)
  = Failed TypeError (Holds default_refs) /\
  add_breed "Brahman" "farmer1" sample_admin_store (Holds default_refs)
  = Failed (HTTPException Forbidden (Some "Admin required")) (Holds default_refs).
Proof.
  repeat apply conj.
  - exact (proj1 (proj1 (reference_edits_never_succeed sample_admin_store Absent
                           "root" "Brahman" "GO") sample_root eq_refl eq_refl)).
  - exact (proj2 (proj2 (proj2 (proj1 (reference_edits_never_succeed
                                         sample_admin_store (Holds default_refs)
                                         "root" "Goiania" "GO")
                                  sample_root eq_refl eq_refl)))).
  - apply (proj2 (reference_edits_never_succeed sample_admin_store
                    (Holds default_refs) "farmer1" "Brahman" "GO")).
    intros u [= <-]. discriminate.
Defined.

Lemma del_user_outcome_witness :
  del_user "buyer2" "farmer1" sample_admin_store
  = Raise (HTTPException Forbidden (Some "Admin required")) sample_admin_store /\
  (exists s',
     del_user "buyer1" "root" sample_admin_store = Return "Deleted" s' /\
     map User.username (users s') = ["root"; "farmer1"; "buyer2"] /\
     proposals s' = proposals sample_admin_store) /\
  (exists s',
     del_user "root" "root" sample_admin_store = Return "Deleted" s' /\
     get_current_admin "root" s'
     = Raise (HTTPException Forbidden (Some "Admin required")) s').
Proof.
  repeat apply conj.
  - apply (proj1 (del_user_outcome sample_admin_store "buyer2" "farmer1")).
    intros u [= <-]. discriminate.
  - destruct (proj2 (del_user_outcome sample_admin_store "buyer1" "root")
                sample_root eq_refl eq_refl)
      as (s' & Hrun & Hu & _ & _ & Hp & _).
    exists s'. repeat apply conj; [exact Hrun | now rewrite Hu | exact Hp].
  - destruct (proj2 (del_user_outcome sample_admin_store "root" "root")
                sample_root eq_refl eq_refl)
      as (s' & Hrun & _ & _ & _ & _ & _ & Hadm).
    exists s'. split; assumption.
Defined.

Lemma paid_only_by_own_buyer_witness :
  In sample_paid
     (proposals (serve sample_env (PayFee "uuid-0" "buyer1") sample_accepted)) /\
  Proposal.status sample_paid = "PAID" /\
  (In sample_paid (proposals sample_accepted) \/
   exists p, In p (proposals sample_accepted) /\
             sample_paid = Proposal.set_status "PAID" p /\
             PayFee "uuid-0" "buyer1"
             = PayFee (Proposal.id p) (Proposal.buyer_id p)).
Proof.
  assert (H : In sample_paid
                 (proposals (serve sample_env (PayFee "uuid-0" "buyer1")
                                   sample_accepted)))
    by (left; reflexivity).
  repeat apply conj; [exact H | reflexivity |].
  exact (paid_only_by_own_buyer sample_env (PayFee "uuid-0" "buyer1")
           sample_accepted sample_paid H eq_refl).
Defined.

Lemma finalize_null_fee_raises_witness :
  exists s',
    finalize_transaction sample_env "L1"
      (FinalPayment.mk "nfe.pdf" "gta.pdf" None (Some 100%float) 0.52%float)
      "farmer1" sample_weighed
    = Raise TypeError s' /\
    farmers s' = farmers sample_weighed /\
    transactions s' = transactions sample_weighed /\
    notifications s' = notifications sample_weighed.
Proof.
  destruct (finalize_null_fee_raises sample_env sample_weighed "L1"
              (FinalPayment.mk "nfe.pdf" "gta.pdf" None (Some 100%float) 0.52%float)
              sample_listing_sold sample_paid
              (Weight.mk 1 5 1400%float "2024-05-01T08:00:00" "L1")
              [Weight.mk 2 5 1600%float "2024-05-01T08:00:00" "L1"])
    as (s' & Hrun & Hf & _ & Ht & Hn & _);
    [reflexivity | reflexivity | reflexivity | reflexivity |].
  exists s'. repeat apply conj; assumption.
Defined.
